(** * http-helper.ts: a fluent request builder over Angular's HttpClient

    Shallow embedding of [HttpHelper] (the static factory) and of
    [HttpRequest] (the builder) from
    [Typings/util/angular/http-helper.ts].

    The builder is a mutable object whose methods [return this]; it is
    modelled as a cell of a heap, and every method is a computation in a
    small state-and-exception monad over the heap and the log of requests
    handed to the network. *)

From Stdlib Require Import ZArith String Ascii List Lia Bool.
From stdpp Require Import base option list gmap strings.

Local Open Scope string_scope.
Local Open Scope list_scope.
Local Set Warnings "-register-all".

(** ** JavaScript values *)

(** The run-time values that reach the builder.  Numbers are the integral
    ones (enum members are).  An object is given by its own enumerable
    properties, in [for..in] order, and by the enumerable properties it
    inherits; arrays are objects whose keys are their indices.  [JObj] is
    an object whose prototype chain reaches [Object.prototype], [JBare] one
    whose chain does not ([Object.create(null)]), so that it has none of
    the built-in methods. *)
Inductive value : Type :=
| JUndefined
| JNull
| JBool (b : bool)
| JNum (n : Z)
| JStr (s : string)
| JFun (id : nat)
| JObj (own inherited : list (string * value))
| JBare (own inherited : list (string * value)).

(** The [typeof] operator. *)
Definition typeof (v : value) : string :=
  match v with
  | JUndefined => "undefined"
  | JNull => "object"
  | JBool _ => "boolean"
  | JNum _ => "number"
  | JStr _ => "string"
  | JFun _ => "function"
  | JObj _ _ => "object"
  | JBare _ _ => "object"
  end.

(** [a === b] where one side is a primitive: objects are compared by
    reference, so an object never equals a primitive. *)
Definition strict_equals (a b : value) : bool :=
  match a, b with
  | JUndefined, JUndefined => true
  | JNull, JNull => true
  | JBool x, JBool y => Bool.eqb x y
  | JNum x, JNum y => Z.eqb x y
  | JStr x, JStr y => String.eqb x y
  | JFun x, JFun y => Nat.eqb x y
  | _, _ => false
  end.

(** Truthiness of an optional string argument ([value?: string]): absent
    and the empty string are falsy. *)
Definition truthy (v : option string) : bool :=
  match v with
  | None => false
  | Some s => negb (String.eqb s "")
  end.

Fixpoint lookup_prop (key : string) (ps : list (string * value)) : option value :=
  match ps with
  | [] => None
  | (k, v) :: ps' => if String.eqb k key then Some v else lookup_prop key ps'
  end.

Definition has_key (key : string) (ps : list (string * value)) : bool :=
  match lookup_prop key ps with Some _ => true | None => false end.

(** The keys a [for (let key in data)] loop visits: nothing for [null],
    own keys first, then the inherited ones that are not shadowed. *)
Definition for_in_keys (data : value) : list string :=
  match data with
  | JObj own inherited | JBare own inherited =>
      own.*1 ++ List.filter (fun k => negb (has_key k own)) inherited.*1
  | _ => []
  end.

(** What the built-in [Object.prototype.hasOwnProperty] answers. *)
Definition has_own (data : value) (key : string) : bool :=
  match data with
  | JObj own _ | JBare own _ => has_key key own
  | _ => false
  end.

(** The enumerable property, own or inherited, that the member access
    [data.hasOwnProperty] finds before it reaches [Object.prototype]. *)
Definition shadowing_member (data : value) : option value :=
  match data with
  | JObj own inherited | JBare own inherited =>
      match lookup_prop "hasOwnProperty" own with
      | Some v => Some v
      | None => lookup_prop "hasOwnProperty" inherited
      end
  | _ => None
  end.

(** [ToBoolean] *)
Definition to_boolean (v : value) : bool :=
  match v with
  | JUndefined | JNull => false
  | JBool b => b
  | JNum n => negb (Z.eqb n 0)
  | JStr s => negb (String.eqb s "")
  | JFun _ | JObj _ _ | JBare _ _ => true
  end.

(** [data[key]] *)
Definition get_prop (data : value) (key : string) : value :=
  match data with
  | JObj own inherited | JBare own inherited =>
      match lookup_prop key own with
      | Some v => v
      | None => default JUndefined (lookup_prop key inherited)
      end
  | _ => JUndefined
  end.

(** ** JSON.stringify on strings *)

Definition dquote : ascii := "034"%char.
Definition backslash : ascii := "092"%char.

Definition hex_digit (n : nat) : ascii :=
  match String.get n "0123456789abcdef" with
  | Some c => c
  | None => "0"%char
  end.

(** One code unit of [QuoteJSONString] (ECMA-262, 25.5.2.3).  Strings are
    those whose code units are below 256, so no surrogate occurs. *)
Definition QuoteJSONChar (c : ascii) : string :=
  let n := nat_of_ascii c in
  if (n =? 8)%nat then "\b"
  else if (n =? 9)%nat then "\t"
  else if (n =? 10)%nat then "\n"
  else if (n =? 12)%nat then "\f"
  else if (n =? 13)%nat then "\r"
  else if (n =? 34)%nat then String backslash (String dquote "")
  else if (n =? 92)%nat then String backslash (String backslash "")
  else if (n <? 32)%nat then
    "\u00" +:+ String (hex_digit (n / 16)) (String (hex_digit (n mod 16)) "")
  else String c "".

Fixpoint QuoteJSONBody (s : string) : string :=
  match s with
  | EmptyString => EmptyString
  | String c s' => QuoteJSONChar c +:+ QuoteJSONBody s'
  end.

Definition QuoteJSONString (s : string) : string :=
  String dquote (QuoteJSONBody s +:+ String dquote "").

(** Reading a JSON string literal back (RFC 8259, section 7), for literals
    that denote code units below 256: the inverse [QuoteJSONString] is
    measured against. *)
Definition hex_value (c : ascii) : option nat :=
  let n := nat_of_ascii c in
  if ((48 <=? n)%nat && (n <=? 57)%nat)%bool then Some (n - 48)
  else if ((97 <=? n)%nat && (n <=? 102)%nat)%bool then Some (n - 87)
  else if ((65 <=? n)%nat && (n <=? 70)%nat)%bool then Some (n - 55)
  else None.

Definition unescape (e : ascii) : option ascii :=
  if Ascii.eqb e "b" then Some "008"%char
  else if Ascii.eqb e "t" then Some "009"%char
  else if Ascii.eqb e "n" then Some "010"%char
  else if Ascii.eqb e "f" then Some "012"%char
  else if Ascii.eqb e "r" then Some "013"%char
  else if Ascii.eqb e dquote then Some dquote
  else if Ascii.eqb e backslash then Some backslash
  else if Ascii.eqb e "/" then Some "/"%char
  else None.

Fixpoint JSON_parse_chars (s : string) : option string :=
  match s with
  | EmptyString => None
  | String c s' =>
      if Ascii.eqb c dquote then
        match s' with EmptyString => Some EmptyString | _ => None end
      else if Ascii.eqb c backslash then
        match s' with
        | EmptyString => None
        | String e s'' =>
            if Ascii.eqb e "u" then
              match s'' with
              | String a (String b (String x (String y rest))) =>
                  match hex_value a, hex_value b, hex_value x, hex_value y with
                  | Some 0, Some 0, Some h, Some l =>
                      String (ascii_of_nat (16 * h + l)) <$> JSON_parse_chars rest
                  | _, _, _, _ => None
                  end
              | _ => None
              end
            else
              match unescape e with
              | Some c' => String c' <$> JSON_parse_chars s''
              | None => None
              end
        end
      else if (nat_of_ascii c <? 32)%nat then None
      else String c <$> JSON_parse_chars s'
  end.

Definition JSON_parse_string (s : string) : option string :=
  match s with
  | String c s' => if Ascii.eqb c dquote then JSON_parse_chars s' else None
  | EmptyString => None
  end.

(** [JSON.stringify(v)] for the only argument the builder passes, a
    string; other values are not serialised by this file. *)
Definition JSON_stringify (v : value) : value :=
  match v with
  | JStr s => JStr (QuoteJSONString s)
  | _ => v
  end.

(** ** Angular's immutable header and parameter collections *)

Definition lower_ascii (c : ascii) : ascii :=
  let n := nat_of_ascii c in
  if ((65 <=? n)%nat && (n <=? 90)%nat)%bool then ascii_of_nat (n + 32) else c.

Fixpoint lower (s : string) : string :=
  match s with
  | EmptyString => EmptyString
  | String c s' => String (lower_ascii c) (lower s')
  end.

(** [HttpHeaders]: [append] clones the collection with one more pending
    update; the collection is the sequence of updates.  Reads match names
    case-insensitively and see the values in the order they were added. *)
Module HttpHeaders.
Definition t : Type := list (string * string).
Definition empty : t := [].
Definition append (name val : string) (h : t) : t := h ++ [(name, val)].
Definition getAll (name : string) (h : t) : list string :=
  (List.filter (fun e => String.eqb (lower e.1) (lower name)) h).*2.
Definition get (name : string) (h : t) : option string :=
  head (getAll name h).
End HttpHeaders.

(** [HttpParams]: the same structure, with case-sensitive names.  The
    stored value is whatever the caller passed. *)
Module HttpParams.
Definition t : Type := list (string * value).
Definition empty : t := [].
Definition append (name : string) (val : value) (p : t) : t := p ++ [(name, val)].
Definition getAll (name : string) (p : t) : list value :=
  (List.filter (fun e => String.eqb e.1 name) p).*2.
End HttpParams.

(** ** Enumerations *)

Module HttpMethod.
Definition Get : value := JNum 0.
Definition Post : value := JNum 1.
Definition Put : value := JNum 2.
Definition Delete : value := JNum 3.
End HttpMethod.

Module HttpContentType.
Definition FormUrlEncoded : value := JNum 0.
Definition Json : value := JNum 1.
End HttpContentType.

(** ** The builder object, the client and the world *)

Record HttpRequest : Type := mkHttpRequest {
  httpMethod : value;
  url : string;
  body : value;
  headers : HttpHeaders.t;
  httpContentType : value;
  parameters : HttpParams.t
}.

Definition set_headers (h : HttpHeaders.t) (r : HttpRequest) : HttpRequest :=
  mkHttpRequest (httpMethod r) (url r) (body r) h (httpContentType r) (parameters r).
Definition set_httpContentType (c : value) (r : HttpRequest) : HttpRequest :=
  mkHttpRequest (httpMethod r) (url r) (body r) (headers r) c (parameters r).
Definition set_parameters (p : HttpParams.t) (r : HttpRequest) : HttpRequest :=
  mkHttpRequest (httpMethod r) (url r) (body r) (headers r) (httpContentType r) p.

(** [{ headers: this.headers, params: this.parameters }] *)
Record RequestOptions : Type := mkOptions {
  opt_headers : HttpHeaders.t;
  opt_params : HttpParams.t
}.

(** What a call of the injected [HttpClient] returns: a cold observable,
    that is, the description of the request it will make when subscribed. *)
Inductive Observable : Type :=
| ClientGet (u : string) (options : RequestOptions)
| ClientPost (u : string) (b : value) (options : RequestOptions)
| ClientPut (u : string) (b : value) (options : RequestOptions)
| ClientDelete (u : string) (options : RequestOptions).

(** Callbacks are only handed over to [subscribe]; they are opaque. *)
Definition callback : Type := nat.

(** One [subscribe]: the request goes out and the three callbacks are
    wired to its result. *)
Record Subscription : Type := mkSubscription {
  source : Observable;
  on_next : callback;
  on_error : option callback;
  on_complete : option callback
}.

Definition loc : Type := positive.

Record World : Type := mkWorld {
  heap : gmap loc HttpRequest;
  network : list Subscription
}.

Definition set_heap (f : gmap loc HttpRequest → gmap loc HttpRequest) (w : World) : World :=
  mkWorld (f (heap w)) (network w).

(** ** The monad of method bodies *)

Inductive exn : Type :=
| TypeError
| Raised (v : value).

Inductive outcome (A : Type) : Type :=
| Returned (a : A) (w : World)
| Thrown (e : exn) (w : World).
Arguments Returned {A} a w.
Arguments Thrown {A} e w.

Definition M (A : Type) : Type := World → outcome A.

Definition ret {A} (a : A) : M A := fun w => Returned a w.

Definition bind {A B} (m : M A) (k : A → M B) : M B :=
  fun w =>
    match m w with
    | Returned a w' => k a w'
    | Thrown e w' => Thrown e w'
    end.

Declare Scope js_scope.
Delimit Scope js_scope with js.
Notation "x <- m ;; k" := (bind m (fun x => k))
  (at level 100, m at next level, right associativity) : js_scope.
Notation "m ;;; k" := (bind m (fun _ => k))
  (at level 100, right associativity) : js_scope.
Local Open Scope js_scope.

(** Reading a field of [this]; a receiver that is not a live builder has
    no fields to read. *)
Definition read (this : loc) : M HttpRequest :=
  fun w =>
    match heap w !! this with
    | Some r => Returned r w
    | None => Thrown TypeError w
    end.

(** Assigning fields of [this]. *)
Definition modify (this : loc) (f : HttpRequest → HttpRequest) : M unit :=
  r <- read this ;;
  fun w => Returned tt (set_heap (insert this (f r)) w).

Fixpoint for_each {A} (l : list A) (f : A → M unit) : M unit :=
  match l with
  | [] => ret tt
  | x :: l' => f x ;;; for_each l' f
  end.

Definition throw {A} (e : exn) : M A := fun w => Thrown e w.

(** What the caller's function values do when called as a method with
    one string argument: [host id self key] runs function [id] with
    [this = self]. *)
Definition Host : Type := nat → value → string → M value.

(** A caller whose functions return [undefined]. *)
Definition quiet_host : Host := fun _ _ _ => ret JUndefined.

(** [data.hasOwnProperty(key)], for the values the loop of [param]
    passes ([typeof data] is ["object"]).  The member is looked up on the
    caller's object: a property of that name is called when it is a
    function and is a [TypeError] otherwise; with no such property the
    built-in answers, if the object inherits it. *)
Definition hasOwnProperty (host : Host) (data : value) (key : string) : M bool :=
  match shadowing_member data with
  | Some (JFun id) => v <- host id data key ;; ret (to_boolean v)
  | Some _ => throw TypeError
  | None =>
      match data with
      | JObj own _ => ret (has_key key own)
      | _ => throw TypeError
      end
  end.

(** ** HttpRequest *)

(** [new HttpRequest(httpMethod, url, body)]: a fresh object; the
    constructor creates the two empty collections and leaves
    [httpContentType] unassigned. *)
Definition new_HttpRequest (m : value) (u : string) (b : value) : M loc :=
  fun w =>
    let this := fresh (dom (heap w)) in
    Returned this
      (set_heap
         (insert this
            (mkHttpRequest m u b HttpHeaders.empty JUndefined HttpParams.empty))
         w).

(** [header(name, value)] *)
Definition header (name val : string) (this : loc) : M loc :=
  modify this (fun r => set_headers (HttpHeaders.append name val (headers r)) r) ;;;
  ret this.

(** [contentType(contentType)] *)
Definition contentType (contentType : value) (this : loc) : M loc :=
  modify this (set_httpContentType contentType) ;;;
  ret this.

(** The string a value is, once [typeof] has answered ["string"]. *)
Definition string_of (v : value) : string :=
  match v with JStr s => s | _ => "" end.

(** [param(data, value?)].  The second parameter is declared
    [value?: string]; [None] is the omitted argument. *)
Definition param (host : Host) (data : value) (val : option string)
    (this : loc) : M loc :=
  if String.eqb (typeof data) "object" then
    for_each (for_in_keys data) (fun key =>
      own <- hasOwnProperty host data key ;;
      if own then
        modify this (fun r =>
          set_parameters
            (HttpParams.append key (get_prop data key) (parameters r)) r)
      else ret tt) ;;;
    ret this
  else
    (if String.eqb (typeof data) "string" && truthy val then
       modify this (fun r =>
         set_parameters
           (HttpParams.append (string_of data) (JStr (default "" val))
              (parameters r)) r)
     else ret tt) ;;;
    ret this.

(** [getContentType(contentType)] *)
Definition getContentType (contentType : value) : string :=
  if strict_equals contentType HttpContentType.FormUrlEncoded then
    "application/x-www-form-urlencoded"
  else if strict_equals contentType HttpContentType.Json then
    "application/json"
  else "application/json".

(** [setContentType()] *)
Definition setContentType (this : loc) : M loc :=
  r <- read this ;;
  header "Content-Type" (getContentType (httpContentType r)) this.

(** [getBody()] *)
Definition getBody (this : loc) : M value :=
  r <- read this ;;
  if String.eqb (typeof (body r)) "string" then ret (JSON_stringify (body r))
  else ret (body r).

(** The injected client, resolved by [ioc.get(HttpClient)]; each call
    builds the observable of one request. *)
Module HttpClient.
Definition get (u : string) (options : RequestOptions) : Observable :=
  ClientGet u options.
Definition post (u : string) (b : value) (options : RequestOptions) : Observable :=
  ClientPost u b options.
Definition put (u : string) (b : value) (options : RequestOptions) : Observable :=
  ClientPut u b options.
Definition delete (u : string) (options : RequestOptions) : Observable :=
  ClientDelete u options.
End HttpClient.

(** [request()] *)
Definition request (this : loc) : M Observable :=
  setContentType this ;;;
  r <- read this ;;
  let options := mkOptions (headers r) (parameters r) in
  if strict_equals (httpMethod r) HttpMethod.Get then
    ret (HttpClient.get (url r) options)
  else if strict_equals (httpMethod r) HttpMethod.Post then
    b <- getBody this ;; ret (HttpClient.post (url r) b options)
  else if strict_equals (httpMethod r) HttpMethod.Put then
    b <- getBody this ;; ret (HttpClient.put (url r) b options)
  else if strict_equals (httpMethod r) HttpMethod.Delete then
    ret (HttpClient.delete (url r) options)
  else ret (HttpClient.get (url r) options).

(** [observable.subscribe(handler, errorHandler, completeHandler)] *)
Definition subscribe (o : Observable) (handler : callback)
    (errorHandler completeHandler : option callback) : M unit :=
  fun w =>
    Returned tt
      (mkWorld (heap w)
         (network w ++ [mkSubscription o handler errorHandler completeHandler])).

(** [handle(handler, errorHandler?, beforeHandler?, completeHandler?)].
    [beforeHandler] is the only callback the builder itself calls: it is
    an arbitrary computation that yields a value. *)
Definition handle (handler : callback) (errorHandler : option callback)
    (beforeHandler : option (M value)) (completeHandler : option callback)
    (this : loc) : M unit :=
  match beforeHandler with
  | Some before =>
      v <- before ;;
      if strict_equals v (JBool false) then ret tt
      else
        o <- request this ;;
        subscribe o handler errorHandler completeHandler
  | None =>
      o <- request this ;;
      subscribe o handler errorHandler completeHandler
  end.

(** ** HttpHelper *)

(** The static factory.  An omitted [body] is [undefined]. *)
Module HttpHelper.
Definition get (u : string) : M loc :=
  new_HttpRequest HttpMethod.Get u JUndefined.
Definition post (u : string) (b : value) : M loc :=
  new_HttpRequest HttpMethod.Post u b.
Definition put (u : string) (b : value) : M loc :=
  new_HttpRequest HttpMethod.Put u b.
Definition delete (u : string) : M loc :=
  new_HttpRequest HttpMethod.Delete u JUndefined.
End HttpHelper.

(** ** Views used in the statements *)

(** The world in which the object at [this] has become [r]. *)
Definition store (this : loc) (r : HttpRequest) (w : World) : World :=
  set_heap (insert this r) w.

Definition options_of (o : Observable) : RequestOptions :=
  match o with
  | ClientGet _ options | ClientPost _ _ options
  | ClientPut _ _ options | ClientDelete _ options => options
  end.

Definition body_of (o : Observable) : option value :=
  match o with
  | ClientPost _ b _ | ClientPut _ b _ => Some b
  | ClientGet _ _ | ClientDelete _ _ => None
  end.

(** What [beforeHandler] amounts to at the head of [handle]: nothing when
    it is absent, otherwise its run and the value it returned. *)
Definition before_outcome (beforeHandler : option (M value)) : M (option value) :=
  match beforeHandler with
  | None => ret None
  | Some before => v <- before ;; ret (Some v)
  end.

(** A chain of configuration calls on one builder. *)
Inductive config : Type :=
| Header (name val : string)
| ContentType (c : value)
| Param (data : value) (val : option string).

Definition configure (host : Host) (c : config) (this : loc) : M loc :=
  match c with
  | Header name val => header name val this
  | ContentType t => contentType t this
  | Param data val => param host data val this
  end.

Fixpoint chain (host : Host) (cs : list config) (this : loc) : M loc :=
  match cs with
  | [] => ret this
  | c :: cs' => b <- configure host c this ;; chain host cs' b
  end.

(** The argument of the last [contentType] call of a chain, [d] when
    there is none. *)
Fixpoint last_contentType (cs : list config) (d : value) : value :=
  match cs with
  | [] => d
  | ContentType t :: cs' => last_contentType cs' t
  | _ :: cs' => last_contentType cs' d
  end.

(** The entries a [for..in] loop guarded by the built-in
    [hasOwnProperty] copies. *)
Definition own_entries (data : value) (keys : list string) : list (string * value) :=
  List.map (fun k => (k, get_prop data k)) (List.filter (has_own data) keys).

(** The arguments of [param] on which [data.hasOwnProperty] is the
    built-in whenever the loop calls it: ordinary objects with no
    enumerable property of that name, own or inherited; objects without
    prototype that have nothing to enumerate; and everything that is not an
    object with properties. *)
Definition plain (data : value) : bool :=
  match data with
  | JObj own inherited =>
      negb (has_key "hasOwnProperty" own)
      && negb (has_key "hasOwnProperty" inherited)
  | JBare [] [] => true
  | JBare _ _ => false
  | _ => true
  end.

Definition plain_config (c : config) : bool :=
  match c with
  | Param data _ => plain data
  | _ => true
  end.

Definition plain_chain (cs : list config) : bool := forallb plain_config cs.

(** The builder once [setContentType] has run. *)
Definition finalize (r : HttpRequest) : HttpRequest :=
  set_headers
    (headers r ++ [("Content-Type", getContentType (httpContentType r))]) r.

(** The value [getBody] returns for a builder. *)
Definition sent_body (r : HttpRequest) : value :=
  if String.eqb (typeof (body r)) "string" then JSON_stringify (body r)
  else body r.

(** The client call [request] makes for a finalized builder. *)
Definition client_call (r : HttpRequest) : Observable :=
  let options := mkOptions (headers r) (parameters r) in
  if strict_equals (httpMethod r) HttpMethod.Get then ClientGet (url r) options
  else if strict_equals (httpMethod r) HttpMethod.Post then
    ClientPost (url r) (sent_body r) options
  else if strict_equals (httpMethod r) HttpMethod.Put then
    ClientPut (url r) (sent_body r) options
  else if strict_equals (httpMethod r) HttpMethod.Delete then
    ClientDelete (url r) options
  else ClientGet (url r) options.

(** A chain without any [contentType] call. *)
Definition no_contentType (cs : list config) : bool :=
  forallb (fun c => match c with ContentType _ => false | _ => true end) cs.

(** [m] run in [w] returns a new object bound to the given method, URL and
    body, with nothing configured yet, and touches nothing else. *)
Definition creates (m : M loc) (w : World) (meth : value) (u : string) (b : value) : Prop :=
  ∃ this w' r,
    m w = Returned this w'
    ∧ heap w !! this = None
    ∧ heap w' !! this = Some r
    ∧ httpMethod r = meth ∧ url r = u ∧ body r = b
    ∧ headers r = HttpHeaders.empty ∧ httpContentType r = JUndefined
    ∧ parameters r = HttpParams.empty
    ∧ (∀ l, l ≠ this → heap w' !! l = heap w !! l)
    ∧ network w' = network w.

(** A builder to run the statements on, and two [beforeHandler]s. *)
Definition sample_builder : HttpRequest :=
  mkHttpRequest HttpMethod.Post "/api" (JStr "x")
    [("Content-Type", "text/plain")] JUndefined [].

Definition sample_world : World := mkWorld {[ 1%positive := sample_builder ]} [].

Definition allow : option (M value) := Some (ret (JBool true)).
Definition veto : option (M value) := Some (ret (JBool false)).

(** ** What a chain of calls contributes, field by field *)

(** The parameters one [param(data, value)] call appends. *)
Definition param_entries_of (data : value) (val : option string) : list (string * value) :=
  if String.eqb (typeof data) "object" then own_entries data (for_in_keys data)
  else if String.eqb (typeof data) "string" && truthy val then
    [(string_of data, JStr (default "" val))]
  else [].

Fixpoint header_entries (cs : list config) : list (string * string) :=
  match cs with
  | [] => []
  | Header name val :: cs' => (name, val) :: header_entries cs'
  | _ :: cs' => header_entries cs'
  end.

Fixpoint param_entries (cs : list config) : list (string * value) :=
  match cs with
  | [] => []
  | Param data val :: cs' => param_entries_of data val ++ param_entries cs'
  | _ :: cs' => param_entries cs'
  end.

(** The builder [r] after the calls [cs]. *)
Definition configured (cs : list config) (r : HttpRequest) : HttpRequest :=
  mkHttpRequest (httpMethod r) (url r) (body r)
    (headers r ++ header_entries cs)
    (last_contentType cs (httpContentType r))
    (parameters r ++ param_entries cs).

(** The object a constructor call leaves behind. *)
Definition constructed (m : value) (u : string) (b : value) : HttpRequest :=
  mkHttpRequest m u b HttpHeaders.empty JUndefined HttpParams.empty.

(** [param(name, value)] for one property of an object. *)
Definition pair_call (e : string * value) : config :=
  Param (JStr e.1) (Some (string_of e.2)).

(** A [beforeHandler] that throws. *)
Definition failing_before : M value :=
  fun w => Thrown (Raised (JStr "stop")) w.

(** A [Get] builder that was given a body all the same. *)
Definition sample_get_builder : HttpRequest :=
  mkHttpRequest HttpMethod.Get "/items" (JStr "ignored") [] (JNum 7) [].

Definition sample_get_world : World :=
  mkWorld {[ 2%positive := sample_get_builder ]} [].

(** ** JSON quoting *)

Lemma JSON_parse_quoted_char c t :
  JSON_parse_chars (QuoteJSONChar c +:+ t) = String c <$> JSON_parse_chars t.
Proof. destruct c as [[] [] [] [] [] [] [] []]; reflexivity. Qed.

Lemma string_append_assoc (a b c : string) : (a +:+ b) +:+ c = a +:+ (b +:+ c).
Proof.
  induction a as [|x a IH]; [reflexivity|].
  change (String x ((a +:+ b) +:+ c) = String x (a +:+ (b +:+ c))).
  by rewrite IH.
Qed.

Lemma JSON_parse_quoted_body s :
  JSON_parse_chars (QuoteJSONBody s +:+ String dquote "") = Some s.
Proof.
  induction s as [|c s IH]; [reflexivity|]. cbn [QuoteJSONBody].
  by rewrite string_append_assoc, JSON_parse_quoted_char, IH.
Qed.

(** Quoting is faithful: the literal [QuoteJSONString s] reads back as [s]. *)
Lemma JSON_parse_quoted s : JSON_parse_string (QuoteJSONString s) = Some s.
Proof. unfold QuoteJSONString. simpl. apply JSON_parse_quoted_body. Qed.

Example QuoteJSONString_escapes :
  QuoteJSONString (String "a" (String dquote (String "010" (String "001" "\"))))
  = String dquote ("a\" +:+ String dquote ("\n\u0001\\" +:+ String dquote "")).
Proof. reflexivity. Qed.

(** ** Store and monad lemmas *)

Lemma world_eta (w : World) : mkWorld (heap w) (network w) = w.
Proof. by destruct w. Qed.

Lemma store_same this r w : heap w !! this = Some r → store this r w = w.
Proof.
  intros Hr. unfold store, set_heap. rewrite insert_id by done. apply world_eta.
Qed.

Lemma store_store this r1 r2 w : store this r2 (store this r1 w) = store this r2 w.
Proof. unfold store, set_heap. simpl. by rewrite insert_insert_eq. Qed.

Lemma heap_store this r w : heap (store this r w) !! this = Some r.
Proof. unfold store, set_heap. simpl. apply lookup_insert_eq. Qed.

Lemma dom_store this r r' w :
  heap w !! this = Some r → dom (heap (store this r' w)) = dom (heap w).
Proof.
  intros Hr. unfold store, set_heap. simpl. rewrite dom_insert_L.
  assert (Hin : this ∈ dom (heap w)) by (apply elem_of_dom; eauto).
  apply set_eq. intros l. rewrite elem_of_union, elem_of_singleton.
  split; [intros [->|]; done | by right].
Qed.

Lemma read_live this w r : heap w !! this = Some r → read this w = Returned r w.
Proof. intros Hr. unfold read. by rewrite Hr. Qed.

Lemma modify_live this f w r :
  heap w !! this = Some r → modify this f w = Returned tt (store this (f r) w).
Proof. intros Hr. unfold modify, bind. by rewrite (read_live _ _ _ Hr). Qed.

Lemma set_parameters_id r : set_parameters (parameters r) r = r.
Proof. by destruct r. Qed.

(** ** The configuration methods on a live builder *)

Lemma header_live name val this w r :
  heap w !! this = Some r →
  header name val this w =
    Returned this (store this (set_headers (headers r ++ [(name, val)]) r) w).
Proof.
  intros Hr. unfold header, bind. by rewrite (modify_live _ _ _ _ Hr).
Qed.

Lemma contentType_live t this w r :
  heap w !! this = Some r →
  contentType t this w = Returned this (store this (set_httpContentType t r) w).
Proof.
  intros Hr. unfold contentType, bind. by rewrite (modify_live _ _ _ _ Hr).
Qed.

Lemma has_key_false key ps : has_key key ps = false → lookup_prop key ps = None.
Proof. unfold has_key. by destruct (lookup_prop key ps). Qed.

Lemma hasOwnProperty_plain host data key :
  plain data = true →
  key ∈ for_in_keys data →
  hasOwnProperty host data key = ret (has_own data key).
Proof.
  intros Hp Hk. destruct data as [| | | | | |own inherited|own inherited];
    try by apply elem_of_nil in Hk.
  - simpl in Hp. apply andb_true_iff in Hp as [Ho Hi].
    apply negb_true_iff in Ho, Hi. unfold hasOwnProperty, shadowing_member.
    by rewrite (has_key_false _ _ Ho), (has_key_false _ _ Hi).
  - destruct own, inherited; try discriminate. by apply elem_of_nil in Hk.
Qed.

Lemma param_loop host data this keys : ∀ w r,
  (∀ key, key ∈ keys → hasOwnProperty host data key = ret (has_own data key)) →
  heap w !! this = Some r →
  for_each keys (fun key =>
    own <- hasOwnProperty host data key ;;
    if own then
      modify this (fun r =>
        set_parameters (HttpParams.append key (get_prop data key) (parameters r)) r)
    else ret tt) w
  = Returned tt (store this (set_parameters (parameters r ++ own_entries data keys) r) w).
Proof.
  induction keys as [|k keys IH]; intros w r Hb Hr.
  - unfold own_entries. simpl. rewrite app_nil_r, set_parameters_id.
    by rewrite store_same.
  - assert (Hb' : ∀ key, key ∈ keys →
              hasOwnProperty host data key = ret (has_own data key))
      by (intros key Hin; apply Hb; by right).
    simpl. unfold bind at 1. unfold bind at 1.
    rewrite (Hb k) by (by left). unfold ret at 1.
    unfold own_entries. simpl.
    destruct (has_own data k) eqn:Hown.
    + rewrite (modify_live _ _ _ _ Hr).
      rewrite (IH _ _ Hb' (heap_store _ _ _)). rewrite store_store.
      unfold HttpParams.append. simpl. rewrite <- app_assoc. reflexivity.
    + unfold ret at 1. apply (IH _ _ Hb' Hr).
Qed.

Lemma param_object host data val this w r :
  heap w !! this = Some r →
  typeof data = "object" →
  plain data = true →
  param host data val this w =
    Returned this
      (store this
         (set_parameters (parameters r ++ own_entries data (for_in_keys data)) r) w).
Proof.
  intros Hr Hty Hp. unfold param. rewrite Hty, String.eqb_refl.
  unfold bind at 1.
  rewrite (param_loop host data this (for_in_keys data) w r); [done| |done].
  intros key Hk. by apply hasOwnProperty_plain.
Qed.

Lemma param_pair host name v this w r :
  heap w !! this = Some r →
  v ≠ "" →
  param host (JStr name) (Some v) this w =
    Returned this (store this (set_parameters (parameters r ++ [(name, JStr v)]) r) w).
Proof.
  intros Hr Hv. unfold param. simpl.
  destruct (String.eqb v "") eqn:E; [by apply String.eqb_eq in E|].
  simpl. unfold bind. by rewrite (modify_live _ _ _ _ Hr).
Qed.

Lemma param_ignored host data val this w :
  typeof data ≠ "object" →
  (typeof data = "string" → truthy val = false) →
  param host data val this w = Returned this w.
Proof.
  intros Hobj Hstr. unfold param.
  destruct (String.eqb (typeof data) "object") eqn:E1;
    [by apply String.eqb_eq in E1|].
  destruct (String.eqb (typeof data) "string") eqn:E2; [|done].
  apply String.eqb_eq in E2. by rewrite (Hstr E2).
Qed.

Lemma param_live host data val this w r :
  heap w !! this = Some r →
  plain data = true →
  ∃ ps, param host data val this w =
          Returned this (store this (set_parameters (parameters r ++ ps) r) w).
Proof.
  intros Hr Hp.
  assert (Hnone : param host data val this w = Returned this w →
    ∃ ps, param host data val this w =
            Returned this (store this (set_parameters (parameters r ++ ps) r) w)).
  { intros ->. exists []. rewrite app_nil_r, set_parameters_id.
    by rewrite store_same. }
  destruct (String.eqb (typeof data) "object") eqn:Hobj.
  - apply String.eqb_eq in Hobj. eexists. by apply param_object.
  - assert (typeof data ≠ "object") as Hno
      by (intros E; rewrite E in Hobj; discriminate).
    destruct data; try (apply Hnone; apply param_ignored; done).
    destruct val as [v|]; [|apply Hnone; by apply param_ignored].
    destruct (String.eqb v "") eqn:Hv.
    + apply Hnone. apply param_ignored; [done|]. intros _. simpl. by rewrite Hv.
    + eexists. apply param_pair; [done|]. intros ->. discriminate.
Qed.

(** ** Sending *)

Lemma getBody_live this w r :
  heap w !! this = Some r → getBody this w = Returned (sent_body r) w.
Proof.
  intros Hr. unfold getBody, bind, sent_body. rewrite (read_live _ _ _ Hr).
  by destruct (String.eqb (typeof (body r)) "string").
Qed.

Lemma setContentType_live this w r :
  heap w !! this = Some r →
  setContentType this w = Returned this (store this (finalize r) w).
Proof.
  intros Hr. unfold setContentType, bind. rewrite (read_live _ _ _ Hr).
  by rewrite (header_live _ _ _ _ _ Hr).
Qed.

Lemma request_live this w r :
  heap w !! this = Some r →
  request this w =
    Returned (client_call (finalize r)) (store this (finalize r) w).
Proof.
  intros Hr. unfold request, bind. rewrite (setContentType_live _ _ _ Hr).
  pose proof (heap_store this (finalize r) w) as Hf.
  rewrite (read_live _ _ _ Hf). unfold client_call.
  repeat (match goal with
          | |- context [if strict_equals ?a ?b then _ else _] =>
              destruct (strict_equals a b)
          end; try reflexivity);
    by rewrite (getBody_live _ _ _ Hf).
Qed.

Lemma strict_equals_false v : strict_equals v (JBool false) = true ↔ v = JBool false.
Proof.
  split; [|by intros ->].
  destruct v as [| |[]| | | | |]; simpl; congruence.
Qed.

Lemma handle_proceeds handler errorHandler beforeHandler completeHandler this w ov w1 r :
  before_outcome beforeHandler w = Returned ov w1 →
  ov ≠ Some (JBool false) →
  heap w1 !! this = Some r →
  handle handler errorHandler beforeHandler completeHandler this w =
    Returned tt
      (mkWorld (heap (store this (finalize r) w1))
         (network w1 ++
            [mkSubscription (client_call (finalize r))
               handler errorHandler completeHandler])).
Proof.
  intros Hb Hov Hr. unfold handle.
  assert (Hsend : (o <- request this ;;
                   subscribe o handler errorHandler completeHandler) w1 =
    Returned tt
      (mkWorld (heap (store this (finalize r) w1))
         (network w1 ++
            [mkSubscription (client_call (finalize r))
               handler errorHandler completeHandler]))).
  { unfold bind. by rewrite (request_live _ _ _ Hr). }
  destruct beforeHandler as [before|]; simpl in Hb.
  - unfold bind in Hb |- *. destruct (before w) as [v w'|ex w']; [|discriminate].
    unfold ret in Hb. injection Hb as <- <-.
    destruct (strict_equals v (JBool false)) eqn:E.
    + apply strict_equals_false in E. congruence.
    + apply Hsend.
  - unfold ret in Hb. injection Hb as <- <-. apply Hsend.
Qed.

Lemma handle_vetoed handler errorHandler beforeHandler completeHandler this w w1 :
  before_outcome beforeHandler w = Returned (Some (JBool false)) w1 →
  handle handler errorHandler beforeHandler completeHandler this w = Returned tt w1.
Proof.
  intros Hb. unfold handle. destruct beforeHandler as [before|]; simpl in Hb.
  - unfold bind in Hb |- *. destruct (before w) as [v w'|ex w']; [|discriminate].
    unfold ret in Hb. injection Hb as -> <-. reflexivity.
  - unfold ret in Hb. discriminate.
Qed.

Lemma handle_before_throws handler errorHandler beforeHandler completeHandler this w ex w1 :
  before_outcome beforeHandler w = Thrown ex w1 →
  handle handler errorHandler beforeHandler completeHandler this w = Thrown ex w1.
Proof.
  intros Hb. unfold handle. destruct beforeHandler as [before|]; simpl in Hb.
  - unfold bind in Hb |- *.
    destruct (before w) as [v w'|ex' w']; [unfold ret in Hb; discriminate|congruence].
  - unfold ret in Hb. discriminate.
Qed.

(** ** Chains of configuration calls *)

Lemma configure_live host c this w r :
  heap w !! this = Some r →
  plain_config c = true →
  ∃ r', configure host c this w = Returned this (store this r' w)
        ∧ httpContentType r' = last_contentType [c] (httpContentType r)
        ∧ httpMethod r' = httpMethod r ∧ url r' = url r ∧ body r' = body r.
Proof.
  intros Hr Hp. destruct c as [name val|t|data val]; simpl.
  - eexists. split; [by apply header_live|done].
  - eexists. split; [by apply contentType_live|done].
  - destruct (param_live host data val this w r Hr Hp) as [ps Hps].
    eexists. split; [apply Hps|done].
Qed.

Lemma chain_live host cs : ∀ this w r,
  heap w !! this = Some r →
  plain_chain cs = true →
  ∃ r', chain host cs this w = Returned this (store this r' w)
        ∧ httpContentType r' = last_contentType cs (httpContentType r)
        ∧ httpMethod r' = httpMethod r ∧ url r' = url r ∧ body r' = body r.
Proof.
  induction cs as [|c cs IH]; intros this w r Hr Hp.
  - exists r. simpl. unfold ret. by rewrite store_same.
  - simpl in Hp. apply andb_true_iff in Hp as [Hpc Hpcs].
    destruct (configure_live host c this w r Hr Hpc)
      as (r1 & Hc & Ht & Hm & Hu & Hb).
    destruct (IH this _ r1 (heap_store this r1 w) Hpcs)
      as (r2 & Hc2 & Ht2 & Hm2 & Hu2 & Hb2).
    exists r2. simpl. unfold bind. rewrite Hc, Hc2, store_store.
    split; [done|]. rewrite Ht2, Hm2, Hu2, Hb2, Hm, Hu, Hb.
    split; [|done]. rewrite Ht. by destruct c.
Qed.

(** ** Objects with distinct keys *)

Lemma has_key_elem k own : has_key k own = true ↔ k ∈ own.*1.
Proof.
  unfold has_key. induction own as [|[k0 v0] own IH]; simpl.
  - split; [discriminate|]. intros H. by apply elem_of_nil in H.
  - rewrite elem_of_cons. destruct (String.eqb k0 k) eqn:E.
    + apply String.eqb_eq in E. split; [intros _; by left|done].
    + apply String.eqb_neq in E. rewrite IH.
      split; [by right|]. intros [Heq|Hin]; [by subst|done].
Qed.

Lemma lookup_prop_NoDup k v own :
  NoDup own.*1 → (k, v) ∈ own → lookup_prop k own = Some v.
Proof.
  induction own as [|[k0 v0] own IH]; simpl; intros Hnd Hin.
  - by apply elem_of_nil in Hin.
  - apply NoDup_cons in Hnd as [Hk0 Hnd].
    apply elem_of_cons in Hin as [Heq|Hin].
    + injection Heq as -> ->. by rewrite String.eqb_refl.
    + destruct (String.eqb k0 k) eqn:E; [|by apply IH].
      apply String.eqb_eq in E. subst k0. exfalso. apply Hk0.
      apply list_elem_of_fmap. by exists (k, v).
Qed.

Lemma filter_all_true {A} (p : A → bool) (l : list A) :
  (∀ x, x ∈ l → p x = true) → List.filter p l = l.
Proof.
  induction l as [|x l IH]; simpl; intros Hall; [done|].
  rewrite (Hall x) by (by left). f_equal. apply IH. intros y Hy.
  apply Hall. by right.
Qed.

Lemma filter_none_true {A} (p : A → bool) (l : list A) :
  List.filter p (List.filter (fun x => negb (p x)) l) = [].
Proof.
  induction l as [|x l IH]; simpl; [done|].
  destruct (p x) eqn:E; simpl; [done|]. by rewrite E.
Qed.

Lemma map_keys_entries (f : string → value) (own : list (string * value)) :
  (∀ k v, (k, v) ∈ own → f k = v) →
  List.map (fun k => (k, f k)) own.*1 = own.
Proof.
  induction own as [|[k0 v0] own IH]; simpl; intros Hf; [done|].
  rewrite (Hf k0 v0) by (by left). f_equal. apply IH. intros k v Hin.
  apply Hf. by right.
Qed.

Lemma own_entries_object own inherited :
  NoDup own.*1 →
  own_entries (JObj own inherited) (for_in_keys (JObj own inherited)) = own.
Proof.
  intros Hnd. unfold own_entries, for_in_keys, has_own.
  rewrite List.filter_app, filter_none_true, app_nil_r.
  rewrite filter_all_true by (intros k Hk; by apply has_key_elem).
  apply map_keys_entries. intros k v Hin. simpl.
  by rewrite (lookup_prop_NoDup k v own Hnd Hin).
Qed.

(** ** The factory *)

Lemma new_HttpRequest_creates m u b w : creates (new_HttpRequest m u b) w m u b.
Proof.
  unfold creates, new_HttpRequest. eexists _, _, _. split; [reflexivity|].
  split; [apply not_elem_of_dom, is_fresh|].
  simpl. rewrite lookup_insert_eq. split; [reflexivity|].
  repeat split. intros l Hne. by rewrite lookup_insert_ne.
Qed.

(** C5: each of [get(url)], [post(url, body?)], [put(url, body?)] and
    [delete(url)] returns a new builder bound to exactly the method [Get],
    [Post], [Put], [Delete] respectively, to exactly the given URL and to
    exactly the given body, which is absent ([undefined]) for [get] and
    [delete]; this holds for every URL string, none is rejected. *)
Theorem factory_binds_method_url_body (u : string) (b : value) (w : World) :
  creates (HttpHelper.get u) w HttpMethod.Get u JUndefined
  ∧ creates (HttpHelper.post u b) w HttpMethod.Post u b
  ∧ creates (HttpHelper.put u b) w HttpMethod.Put u b
  ∧ creates (HttpHelper.delete u) w HttpMethod.Delete u JUndefined.
Proof. repeat split; apply new_HttpRequest_creates. Qed.

(** ** Fluent chaining *)

Lemma param_returns_this host data val this w b w' :
  param host data val this w = Returned b w' → b = this.
Proof.
  unfold param.
  destruct (String.eqb (typeof data) "object"); unfold bind at 1;
    match goal with
    | |- context [match ?m w with _ => _ end] => destruct (m w)
    end; unfold ret; congruence.
Qed.

(** C8: [header], [contentType] and [param] return the very builder they
    were invoked on, and no other object is created: [header] and
    [contentType] with any arguments, [param] with any argument whose
    [hasOwnProperty] is the built-in one; and whatever its argument,
    whenever [param] returns it returns that builder. *)
Theorem config_returns_same_builder host (this : loc) (w : World) (r : HttpRequest) :
  heap w !! this = Some r →
  (∀ name val, ∃ w', header name val this w = Returned this w'
                     ∧ dom (heap w') = dom (heap w))
  ∧ (∀ t, ∃ w', contentType t this w = Returned this w'
                ∧ dom (heap w') = dom (heap w))
  ∧ (∀ data val,
       plain data = true →
       ∃ w', param host data val this w = Returned this w'
             ∧ dom (heap w') = dom (heap w))
  ∧ (∀ data val b w', param host data val this w = Returned b w' → b = this).
Proof.
  intros Hr. split; [|split; [|split]].
  - intros name val. eexists. split; [by apply header_live|by eapply dom_store].
  - intros t. eexists. split; [by apply contentType_live|by eapply dom_store].
  - intros data val Hp.
    destruct (param_live host data val this w r Hr Hp) as [ps Hps].
    eexists. split; [apply Hps|by eapply dom_store].
  - intros data val b w'. apply param_returns_this.
Qed.

Lemma config_returns_same_builder_witness :
  heap sample_world !! 1%positive = Some sample_builder
  ∧ ∃ w', param quiet_host (JObj [("a", JStr "1")] []) None 1%positive
            sample_world = Returned 1%positive w'
          ∧ dom (heap w') = dom (heap sample_world).
Proof.
  split; [reflexivity|].
  apply (config_returns_same_builder quiet_host 1%positive sample_world
           sample_builder eq_refl).
  reflexivity.
Defined.

(** ** Query parameters *)

Lemma hasOwnProperty_shadowed host data v key w :
  shadowing_member data = Some v →
  (∀ id, v ≠ JFun id) →
  hasOwnProperty host data key w = Thrown TypeError w.
Proof.
  intros Hm Hv. unfold hasOwnProperty. rewrite Hm.
  destruct v; try reflexivity. by destruct (Hv id).
Qed.

(** C6, where the code departs from it: an object argument with an own
    property named [hasOwnProperty] that is not a function makes
    [data.hasOwnProperty(key)] a [TypeError] on the first key; [param]
    throws and nothing is appended. *)
Theorem param_shadowed_hasOwnProperty_throws host
    (own inherited : list (string * value)) (v : value)
    (val : option string) (this : loc) (w : World) :
  lookup_prop "hasOwnProperty" own = Some v →
  (∀ id, v ≠ JFun id) →
  param host (JObj own inherited) val this w = Thrown TypeError w.
Proof.
  intros Hm Hv. destruct own as [|[k0 v0] own']; [discriminate|].
  unfold param. simpl typeof. rewrite String.eqb_refl.
  unfold bind at 1. simpl for_each. unfold bind at 1. unfold bind at 1.
  rewrite (hasOwnProperty_shadowed host _ v); [reflexivity| |done].
  unfold shadowing_member. by rewrite Hm.
Qed.

Lemma param_shadowed_hasOwnProperty_throws_witness :
  lookup_prop "hasOwnProperty" [("hasOwnProperty", JStr "1")] = Some (JStr "1")
  ∧ (∀ id, JStr "1" ≠ JFun id)
  ∧ param quiet_host (JObj [("hasOwnProperty", JStr "1")] []) None 1%positive
      sample_world = Thrown TypeError sample_world.
Proof.
  split; [reflexivity|]. split; [discriminate|].
  apply (param_shadowed_hasOwnProperty_throws quiet_host
           [("hasOwnProperty", JStr "1")] [] (JStr "1") None 1%positive
           sample_world); [reflexivity|discriminate].
Defined.

(** X16: the shapes of [param]: [param({a:"1", b:"2"})] appends [a=1] and
    [b=2], as it appends every own enumerable property of an object with
    distinct keys whose [hasOwnProperty] is the built-in one;
    [param("c", "3")] appends exactly [c=3]; [param("d")] adds nothing;
    and an argument that is neither an object nor a pair of strings leaves
    the parameters as they are and returns normally. *)
Theorem param_call_shapes host (this : loc) (w : World) (r : HttpRequest) :
  heap w !! this = Some r →
  param host (JObj [("a", JStr "1"); ("b", JStr "2")] []) None this w =
    Returned this
      (store this
         (set_parameters (parameters r ++ [("a", JStr "1"); ("b", JStr "2")]) r) w)
  ∧ (∀ own inherited val,
       NoDup own.*1 →
       plain (JObj own inherited) = true →
       param host (JObj own inherited) val this w =
         Returned this (store this (set_parameters (parameters r ++ own) r) w))
  ∧ param host (JStr "c") (Some "3") this w =
      Returned this
        (store this (set_parameters (parameters r ++ [("c", JStr "3")]) r) w)
  ∧ param host (JStr "d") None this w = Returned this w
  ∧ (∀ data val,
       typeof data ≠ "object" →
       ¬ (∃ name v, data = JStr name ∧ val = Some v) →
       param host data val this w = Returned this w).
Proof.
  intros Hr.
  assert (Hobj : ∀ own inherited val,
       NoDup own.*1 →
       plain (JObj own inherited) = true →
       param host (JObj own inherited) val this w =
         Returned this (store this (set_parameters (parameters r ++ own) r) w)).
  { intros own inherited val Hnd Hp.
    rewrite (param_object host _ val _ _ _ Hr) by done.
    by rewrite own_entries_object. }
  split; [|split; [exact Hobj|split; [|split]]].
  - apply Hobj; [|reflexivity]. simpl. apply NoDup_cons.
    split; [|apply NoDup_singleton].
    rewrite list_elem_of_singleton. discriminate.
  - apply param_pair; [done|discriminate].
  - by apply param_ignored.
  - intros data val Hno Hpair. apply param_ignored; [done|].
    intros Hstr. destruct val as [v|]; [|done].
    destruct data; try discriminate. exfalso. apply Hpair. eauto.
Qed.

Lemma param_call_shapes_witness :
  heap sample_world !! 1%positive = Some sample_builder
  ∧ param quiet_host (JStr "c") (Some "3") 1%positive sample_world =
      Returned 1%positive
        (store 1%positive
           (set_parameters (parameters sample_builder ++ [("c", JStr "3")])
              sample_builder) sample_world).
Proof.
  split; [reflexivity|].
  apply (param_call_shapes quiet_host 1%positive sample_world sample_builder).
  reflexivity.
Defined.

(** C7, where the code departs from it: with the empty string as value
    the guard [typeof data === "string" && value] is falsy and the pair
    form appends nothing, while the object form, which has no such guard,
    appends the same name with the empty value. *)
Theorem param_empty_value_dropped_by_pair_form host (name : string)
    (this : loc) (w : World) (r : HttpRequest) :
  heap w !! this = Some r →
  name ≠ "hasOwnProperty" →
  param host (JStr name) (Some "") this w = Returned this w
  ∧ param host (JObj [(name, JStr "")] []) None this w =
      Returned this
        (store this (set_parameters (parameters r ++ [(name, JStr "")]) r) w).
Proof.
  intros Hr Hname. split; [reflexivity|].
  rewrite (param_object host _ None _ _ _ Hr); [|reflexivity|].
  - rewrite own_entries_object; [done|]. apply NoDup_singleton.
  - simpl. unfold has_key. simpl.
    destruct (String.eqb name "hasOwnProperty") eqn:E; [|done].
    by apply String.eqb_eq in E.
Qed.

Lemma param_empty_value_dropped_by_pair_form_witness :
  heap sample_world !! 1%positive = Some sample_builder
  ∧ "a" ≠ "hasOwnProperty"
  ∧ param quiet_host (JStr "a") (Some "") 1%positive sample_world =
      Returned 1%positive sample_world
  ∧ param quiet_host (JObj [("a", JStr "")] []) None 1%positive sample_world =
      Returned 1%positive
        (store 1%positive
           (set_parameters (parameters sample_builder ++ [("a", JStr "")])
              sample_builder) sample_world).
Proof.
  split; [reflexivity|]. split; [discriminate|].
  apply (param_empty_value_dropped_by_pair_form quiet_host "a" 1%positive
           sample_world sample_builder); [reflexivity|discriminate].
Defined.

(** X17: for every pair of strings [name] and [value] with [value] not
    empty, [param(name, value)] appends exactly that one pair. *)
Theorem param_pair_appends host (name v : string) (this : loc) (w : World) (r : HttpRequest) :
  heap w !! this = Some r →
  v ≠ "" →
  param host (JStr name) (Some v) this w =
    Returned this
      (store this (set_parameters (parameters r ++ [(name, JStr v)]) r) w).
Proof. apply param_pair. Qed.

Lemma param_pair_appends_witness :
  heap sample_world !! 1%positive = Some sample_builder
  ∧ "3" ≠ ""
  ∧ param quiet_host (JStr "c") (Some "3") 1%positive sample_world =
      Returned 1%positive
        (store 1%positive
           (set_parameters (parameters sample_builder ++ [("c", JStr "3")])
              sample_builder) sample_world).
Proof.
  split; [reflexivity|]. split; [discriminate|].
  apply (param_pair_appends quiet_host "c" "3" 1%positive sample_world sample_builder);
    [reflexivity|discriminate].
Defined.

(** C10: [param(null)] takes the object branch, since [typeof null] is
    ["object"]; the loop visits no property; the call returns the same
    builder without raising, and the world, hence the parameter set, is
    unchanged. *)
Theorem param_null_is_noop host (val : option string) (this : loc) (w : World) :
  typeof JNull = "object"
  ∧ for_in_keys JNull = []
  ∧ param host JNull val this w = Returned this w.
Proof. repeat split. Qed.

(** ** What the client receives *)

Lemma options_client_call r :
  options_of (client_call r) = mkOptions (headers r) (parameters r).
Proof.
  unfold client_call.
  repeat (match goal with
          | |- context [if strict_equals ?a ?b then _ else _] =>
              destruct (strict_equals a b)
          end; try reflexivity).
Qed.

Lemma strict_equals_num v n : strict_equals v (JNum n) = true ↔ v = JNum n.
Proof.
  split; [|intros ->; simpl; apply Z.eqb_refl].
  destruct v; simpl; try discriminate. intros E. apply Z.eqb_eq in E. by subst.
Qed.

Lemma getAll_snoc name h n v :
  HttpHeaders.getAll name (h ++ [(n, v)]) =
    HttpHeaders.getAll name h ++
      (if String.eqb (lower n) (lower name) then [v] else []).
Proof.
  unfold HttpHeaders.getAll. rewrite List.filter_app, fmap_app. simpl.
  by destruct (String.eqb (lower n) (lower name)).
Qed.

Lemma getAll_elem name v h :
  (name, v) ∈ h → v ∈ HttpHeaders.getAll name h.
Proof.
  intros Hin. unfold HttpHeaders.getAll. apply list_elem_of_fmap.
  exists (name, v). split; [done|]. apply list_elem_of_In, List.filter_In.
  split; [by apply list_elem_of_In|]. simpl. apply String.eqb_refl.
Qed.

Lemma last_contentType_none cs d :
  no_contentType cs = true → last_contentType cs d = d.
Proof.
  induction cs as [|c cs IH]; simpl; [done|].
  intros H. apply andb_true_iff in H as [Hc Hcs]. destruct c; try discriminate; auto.
Qed.

Lemma last_contentType_last cs1 t cs2 d :
  no_contentType cs2 = true →
  last_contentType (cs1 ++ ContentType t :: cs2) d = t.
Proof.
  intros H. revert d. induction cs1 as [|c cs1 IH]; intros d; simpl.
  - by apply last_contentType_none.
  - destruct c; apply IH.
Qed.

Lemma chain_then_handle host cs handler errorHandler completeHandler this w r :
  heap w !! this = Some r →
  plain_chain cs = true →
  ∃ w2 o,
    (b <- chain host cs this ;;
     handle handler errorHandler None completeHandler b) w = Returned tt w2
    ∧ network w2 =
        network w ++ [mkSubscription o handler errorHandler completeHandler]
    ∧ last (HttpHeaders.getAll "Content-Type" (opt_headers (options_of o))) =
        Some (getContentType (last_contentType cs (httpContentType r))).
Proof.
  intros Hr Hp.
  destruct (chain_live host cs this w r Hr Hp) as (r' & Hc & Ht & _).
  unfold bind. rewrite Hc.
  rewrite (handle_proceeds _ _ None _ this _ None (store this r' w) r');
    [|reflexivity|discriminate|apply heap_store].
  eexists _, _. split; [reflexivity|]. split; [reflexivity|].
  rewrite options_client_call. simpl. rewrite getAll_snoc. simpl.
  by rewrite last_snoc, Ht.
Qed.

Section Sending.

Variables (handler : callback) (errorHandler completeHandler : option callback).
Variable beforeHandler : option (M value).
Variable this : loc.
(** [w] is the world when [handle] is called, [w1] the world once
    [beforeHandler] has returned [ov] ([None]: there was no handler), and
    [r] the builder at that moment. *)
Variables (w w1 : World) (ov : option value) (r : HttpRequest).
Hypothesis Hbefore : before_outcome beforeHandler w = Returned ov w1.
Hypothesis Hlive : heap w1 !! this = Some r.

(** C2: [handle] dispatches a request, wired to the three callbacks, if
    and only if [beforeHandler] is absent or returns something other
    than exactly [false]; when it returns exactly [false], [handle]
    returns in the world [beforeHandler] left: nothing is sent and no
    callback is subscribed, so none can fire. *)
Theorem handle_dispatches_iff_not_vetoed :
  ((∃ w2 s,
      handle handler errorHandler beforeHandler completeHandler this w =
        Returned tt w2
      ∧ network w2 = network w1 ++ [s]
      ∧ on_next s = handler ∧ on_error s = errorHandler
      ∧ on_complete s = completeHandler)
   ↔ ov ≠ Some (JBool false))
  ∧ (ov = Some (JBool false) →
     handle handler errorHandler beforeHandler completeHandler this w =
       Returned tt w1).
Proof.
  split; [split|].
  - intros (w2 & s & Hh & Hn & _) Hov. subst ov.
    rewrite (handle_vetoed _ _ _ _ _ _ _ Hbefore) in Hh.
    injection Hh as <-. apply (f_equal length) in Hn.
    rewrite length_app in Hn. simpl in Hn. lia.
  - intros Hov.
    rewrite (handle_proceeds _ _ _ _ _ _ _ _ _ Hbefore Hov Hlive).
    eexists _, _. split; [reflexivity|]. simpl. by repeat split.
  - intros ->. by apply handle_vetoed.
Qed.

Hypothesis Hproceeds : ov ≠ Some (JBool false).

(** The request [handle] sends once it proceeds. *)
Lemma handle_sends :
  ∃ w2,
    handle handler errorHandler beforeHandler completeHandler this w =
      Returned tt w2
    ∧ network w2 =
        network w1 ++
          [mkSubscription (client_call (finalize r))
             handler errorHandler completeHandler]
    ∧ heap w2 = <[this := finalize r]> (heap w1).
Proof.
  rewrite (handle_proceeds _ _ _ _ _ _ _ _ _ Hbefore Hproceeds Hlive).
  by eexists.
Qed.

(** C3: for a POST or PUT builder whose body is a string [s], the body
    handed to the client is the JSON-quoted [s]; a body that is not a
    string is handed over unchanged.  The body ["x"] is sent as the three
    characters quote, x, quote. *)
Theorem handle_sends_serialized_body :
  httpMethod r = HttpMethod.Post ∨ httpMethod r = HttpMethod.Put →
  ∃ w2 o,
    handle handler errorHandler beforeHandler completeHandler this w =
      Returned tt w2
    ∧ network w2 =
        network w1 ++ [mkSubscription o handler errorHandler completeHandler]
    ∧ (∀ s, body r = JStr s → body_of o = Some (JStr (QuoteJSONString s)))
    ∧ (typeof (body r) ≠ "string" → body_of o = Some (body r))
    ∧ QuoteJSONString "x" = String dquote (String "x" (String dquote "")).
Proof.
  intros Hm. destruct handle_sends as (w2 & Hh & Hn & _).
  exists w2, (client_call (finalize r)). split; [done|]. split; [done|].
  assert (Hbody : body_of (client_call (finalize r)) = Some (sent_body r)).
  { unfold client_call. simpl. by destruct Hm as [-> | ->]. }
  rewrite Hbody. unfold sent_body. repeat split.
  - intros s ->. reflexivity.
  - intros Hty. destruct (String.eqb (typeof (body r)) "string") eqn:E; [|done].
    by apply String.eqb_eq in E.
Qed.

(** C4: the bound method selects the client call: [Get] the client's
    [get], [Post] its [post] with the serialized body, [Put] its [put]
    with the serialized body, [Delete] its [delete]; any other method
    value gives a [get]; each on the bound URL with the accumulated
    headers and parameters as options. *)
Theorem handle_dispatches_by_method :
  ∃ w2 o,
    handle handler errorHandler beforeHandler completeHandler this w =
      Returned tt w2
    ∧ network w2 =
        network w1 ++ [mkSubscription o handler errorHandler completeHandler]
    ∧ let options := mkOptions (headers (finalize r)) (parameters r) in
      (httpMethod r = HttpMethod.Get → o = ClientGet (url r) options)
      ∧ (httpMethod r = HttpMethod.Post →
         o = ClientPost (url r) (sent_body r) options)
      ∧ (httpMethod r = HttpMethod.Put →
         o = ClientPut (url r) (sent_body r) options)
      ∧ (httpMethod r = HttpMethod.Delete → o = ClientDelete (url r) options)
      ∧ (httpMethod r ≠ HttpMethod.Get → httpMethod r ≠ HttpMethod.Post →
         httpMethod r ≠ HttpMethod.Put → httpMethod r ≠ HttpMethod.Delete →
         o = ClientGet (url r) options).
Proof.
  destruct handle_sends as (w2 & Hh & Hn & _).
  exists w2, (client_call (finalize r)). split; [done|]. split; [done|].
  unfold client_call. simpl. repeat split.
  - by intros ->.
  - by intros ->.
  - by intros ->.
  - by intros ->.
  - intros HG HP HU HD.
    destruct (strict_equals (httpMethod r) HttpMethod.Get) eqn:EG;
      [by apply strict_equals_num in EG|].
    destruct (strict_equals (httpMethod r) HttpMethod.Post) eqn:EP;
      [by apply strict_equals_num in EP|].
    destruct (strict_equals (httpMethod r) HttpMethod.Put) eqn:EU;
      [by apply strict_equals_num in EU|].
    destruct (strict_equals (httpMethod r) HttpMethod.Delete) eqn:ED;
      [by apply strict_equals_num in ED|].
    reflexivity.
Qed.

(** C1: when [handle] proceeds to send, the content-type tag is mapped
    to its MIME string and appended as the last [Content-Type] value of
    the outgoing request.  After a chain of configuration calls whose
    last [contentType] call set tag [t] the request carries the MIME
    string of [t], which is [application/x-www-form-urlencoded] for
    [FormUrlEncoded] and [application/json] for [Json]; when
    [contentType] was never called on a builder whose tag is unset it
    carries [application/json].  The chains are those whose [param]
    arguments leave [hasOwnProperty] the built-in one, so that no call of
    the chain throws. *)
Theorem handle_applies_content_type :
  (∃ w2 o,
     handle handler errorHandler beforeHandler completeHandler this w =
       Returned tt w2
     ∧ network w2 =
         network w1 ++ [mkSubscription o handler errorHandler completeHandler]
     ∧ HttpHeaders.getAll "Content-Type" (opt_headers (options_of o)) =
         HttpHeaders.getAll "Content-Type" (headers r) ++
           [getContentType (httpContentType r)])
  ∧ (∀ host cs1 t cs2 b w0 r0,
       heap w0 !! b = Some r0 →
       plain_chain cs1 = true →
       plain_chain cs2 = true →
       no_contentType cs2 = true →
       ∃ w2 o,
         (x <- chain host (cs1 ++ ContentType t :: cs2) b ;;
          handle handler errorHandler None completeHandler x) w0 =
           Returned tt w2
         ∧ network w2 =
             network w0 ++
               [mkSubscription o handler errorHandler completeHandler]
         ∧ last (HttpHeaders.getAll "Content-Type" (opt_headers (options_of o))) =
             Some (getContentType t))
  ∧ (∀ host cs b w0 r0,
       heap w0 !! b = Some r0 →
       plain_chain cs = true →
       httpContentType r0 = JUndefined →
       no_contentType cs = true →
       ∃ w2 o,
         (x <- chain host cs b ;;
          handle handler errorHandler None completeHandler x) w0 =
           Returned tt w2
         ∧ network w2 =
             network w0 ++
               [mkSubscription o handler errorHandler completeHandler]
         ∧ last (HttpHeaders.getAll "Content-Type" (opt_headers (options_of o))) =
             Some "application/json")
  ∧ getContentType HttpContentType.FormUrlEncoded =
      "application/x-www-form-urlencoded"
  ∧ getContentType HttpContentType.Json = "application/json"
  ∧ getContentType JUndefined = "application/json".
Proof.
  split; [|split; [|split; [|by repeat split]]].
  - destruct handle_sends as (w2 & Hh & Hn & _).
    exists w2, (client_call (finalize r)). split; [done|]. split; [done|].
    rewrite options_client_call. simpl. by rewrite getAll_snoc.
  - intros host cs1 t cs2 b w0 r0 Hr0 Hp1 Hp2 Hcs2.
    assert (Hp : plain_chain (cs1 ++ ContentType t :: cs2) = true).
    { unfold plain_chain. rewrite forallb_app. simpl.
      apply andb_true_iff. by split. }
    destruct (chain_then_handle host (cs1 ++ ContentType t :: cs2)
                handler errorHandler completeHandler b w0 r0 Hr0 Hp)
      as (w2 & o & Hh & Hn & Hl).
    exists w2, o. split; [done|]. split; [done|].
    by rewrite Hl, last_contentType_last.
  - intros host cs b w0 r0 Hr0 Hp Htag Hcs.
    destruct (chain_then_handle host cs handler errorHandler completeHandler
                b w0 r0 Hr0 Hp) as (w2 & o & Hh & Hn & Hl).
    exists w2, o. split; [done|]. split; [done|].
    by rewrite Hl, last_contentType_none, Htag.
Qed.

(** C9: finalizing the content type only appends: the headers handed to
    the client are the accumulated ones followed by the mapped
    [Content-Type]; every accumulated entry is still there, and a
    [Content-Type] the caller added with [header] is carried together
    with the mapped one. *)
Theorem handle_keeps_accumulated_headers :
  (∃ w2 o,
     handle handler errorHandler beforeHandler completeHandler this w =
       Returned tt w2
     ∧ network w2 =
         network w1 ++ [mkSubscription o handler errorHandler completeHandler]
     ∧ opt_headers (options_of o) =
         headers r ++ [("Content-Type", getContentType (httpContentType r))]
     ∧ (∀ entry, entry ∈ headers r → entry ∈ opt_headers (options_of o))
     ∧ (∀ v, ("Content-Type", v) ∈ headers r →
          v ∈ HttpHeaders.getAll "Content-Type" (opt_headers (options_of o))
          ∧ getContentType (httpContentType r) ∈
              HttpHeaders.getAll "Content-Type" (opt_headers (options_of o))))
  ∧ (∀ v b w0 r0,
       heap w0 !! b = Some r0 →
       ∃ w2 o,
         (x <- header "Content-Type" v b ;;
          handle handler errorHandler None completeHandler x) w0 =
           Returned tt w2
         ∧ network w2 =
             network w0 ++
               [mkSubscription o handler errorHandler completeHandler]
         ∧ opt_headers (options_of o) =
             headers r0 ++
               [("Content-Type", v);
                ("Content-Type", getContentType (httpContentType r0))]).
Proof.
  split.
  - destruct handle_sends as (w2 & Hh & Hn & _).
    exists w2, (client_call (finalize r)). split; [done|]. split; [done|].
    rewrite options_client_call. simpl. split; [done|]. split.
    + intros entry Hin. apply elem_of_app. by left.
    + intros v Hin. split.
      * apply getAll_elem, elem_of_app. by left.
      * apply getAll_elem, elem_of_app. right. by apply list_elem_of_singleton.
  - intros v b w0 r0 Hr0. unfold bind.
    rewrite (header_live _ _ _ _ _ Hr0).
    erewrite (handle_proceeds _ _ None _ b _ None);
      [|reflexivity|discriminate|apply heap_store].
    eexists _, _. split; [reflexivity|]. split; [reflexivity|].
    rewrite options_client_call. simpl. by rewrite <- app_assoc.
Qed.

End Sending.

(** ** The statements at the sample builder *)

Lemma handle_dispatches_iff_not_vetoed_witness :
  before_outcome veto sample_world = Returned (Some (JBool false)) sample_world
  ∧ heap sample_world !! 1%positive = Some sample_builder
  ∧ handle 7 None veto None 1%positive sample_world = Returned tt sample_world.
Proof.
  split; [reflexivity|]. split; [reflexivity|].
  exact (proj2
           (handle_dispatches_iff_not_vetoed 7 None None veto 1%positive
              sample_world sample_world (Some (JBool false)) sample_builder
              eq_refl eq_refl)
           eq_refl).
Defined.

Lemma allow_proceeds : Some (JBool true) ≠ Some (JBool false).
Proof. discriminate. Defined.

Lemma handle_sends_serialized_body_witness :
  before_outcome allow sample_world = Returned (Some (JBool true)) sample_world
  ∧ heap sample_world !! 1%positive = Some sample_builder
  ∧ Some (JBool true) ≠ Some (JBool false)
  ∧ (httpMethod sample_builder = HttpMethod.Post
     ∨ httpMethod sample_builder = HttpMethod.Put)
  ∧ ∃ w2 o,
      handle 7 None allow None 1%positive sample_world = Returned tt w2
      ∧ network w2 = network sample_world ++ [mkSubscription o 7 None None]
      ∧ body_of o = Some (JStr (String dquote (String "x" (String dquote "")))).
Proof.
  split; [reflexivity|]. split; [reflexivity|]. split; [exact allow_proceeds|].
  split; [left; reflexivity|].
  destruct (handle_sends_serialized_body 7 None None allow 1%positive
              sample_world sample_world (Some (JBool true)) sample_builder
              eq_refl eq_refl allow_proceeds (or_introl eq_refl))
    as (w2 & o & Hh & Hn & Hs & _).
  exists w2, o. split; [exact Hh|]. split; [exact Hn|].
  exact (Hs "x" eq_refl).
Defined.

Lemma handle_dispatches_by_method_witness :
  before_outcome allow sample_world = Returned (Some (JBool true)) sample_world
  ∧ heap sample_world !! 1%positive = Some sample_builder
  ∧ Some (JBool true) ≠ Some (JBool false)
  ∧ ∃ w2 o,
      handle 7 None allow None 1%positive sample_world = Returned tt w2
      ∧ network w2 = network sample_world ++ [mkSubscription o 7 None None]
      ∧ o = ClientPost "/api" (sent_body sample_builder)
              (mkOptions (headers (finalize sample_builder)) []).
Proof.
  split; [reflexivity|]. split; [reflexivity|]. split; [exact allow_proceeds|].
  destruct (handle_dispatches_by_method 7 None None allow 1%positive
              sample_world sample_world (Some (JBool true)) sample_builder
              eq_refl eq_refl allow_proceeds)
    as (w2 & o & Hh & Hn & _ & Hpost & _).
  exists w2, o. split; [exact Hh|]. split; [exact Hn|].
  exact (Hpost eq_refl).
Defined.

Lemma handle_applies_content_type_witness :
  before_outcome allow sample_world = Returned (Some (JBool true)) sample_world
  ∧ heap sample_world !! 1%positive = Some sample_builder
  ∧ Some (JBool true) ≠ Some (JBool false)
  ∧ ∃ w2 o,
      handle 7 None allow None 1%positive sample_world = Returned tt w2
      ∧ network w2 = network sample_world ++ [mkSubscription o 7 None None]
      ∧ HttpHeaders.getAll "Content-Type" (opt_headers (options_of o)) =
          ["text/plain"; "application/json"].
Proof.
  split; [reflexivity|]. split; [reflexivity|]. split; [exact allow_proceeds|].
  exact (proj1
           (handle_applies_content_type 7 None None allow 1%positive
              sample_world sample_world (Some (JBool true)) sample_builder
              eq_refl eq_refl allow_proceeds)).
Defined.

Lemma handle_keeps_accumulated_headers_witness :
  before_outcome allow sample_world = Returned (Some (JBool true)) sample_world
  ∧ heap sample_world !! 1%positive = Some sample_builder
  ∧ Some (JBool true) ≠ Some (JBool false)
  ∧ ∃ w2 o,
      handle 7 None allow None 1%positive sample_world = Returned tt w2
      ∧ network w2 = network sample_world ++ [mkSubscription o 7 None None]
      ∧ opt_headers (options_of o) =
          [("Content-Type", "text/plain"); ("Content-Type", "application/json")].
Proof.
  split; [reflexivity|]. split; [reflexivity|]. split; [exact allow_proceeds|].
  destruct (proj1
              (handle_keeps_accumulated_headers 7 None None allow 1%positive
                 sample_world sample_world (Some (JBool true)) sample_builder
                 eq_refl eq_refl allow_proceeds))
    as (w2 & o & Hh & Hn & Ho & _).
  exists w2, o. split; [exact Hh|]. split; [exact Hn|]. exact Ho.
Defined.

(** A whole exchange, from the factory to the client. *)
Example post_form_scenario :
  match
    (b <- HttpHelper.post "/api" (JStr "x") ;;
     b <- contentType HttpContentType.FormUrlEncoded b ;;
     b <- param quiet_host (JObj [("a", JStr "1")] [("z", JNull)]) None b ;;
     b <- param quiet_host (JStr "d") None b ;;
     handle 7 None allow (Some 9) b) (mkWorld ∅ [])
  with
  | Returned _ w' => network w'
  | Thrown _ _ => []
  end =
  [mkSubscription
     (ClientPost "/api" (JStr (String dquote (String "x" (String dquote ""))))
        (mkOptions [("Content-Type", "application/x-www-form-urlencoded")]
           [("a", JStr "1")]))
     7 None (Some 9)].
Proof. reflexivity. Qed.

(** ** Chains of calls, field by field *)

Lemma heap_store_ne this l r w : l ≠ this → heap (store this r w) !! l = heap w !! l.
Proof. intros Hne. unfold store, set_heap. simpl. by apply lookup_insert_ne. Qed.

Lemma param_exact host data val this w r :
  heap w !! this = Some r →
  plain data = true →
  param host data val this w =
    Returned this
      (store this (set_parameters (parameters r ++ param_entries_of data val) r) w).
Proof.
  intros Hr Hp. unfold param_entries_of.
  destruct (String.eqb (typeof data) "object") eqn:Hobj.
  - apply String.eqb_eq in Hobj. by apply param_object.
  - assert (typeof data ≠ "object") as Hno
      by (intros E; rewrite E in Hobj; discriminate).
    destruct (String.eqb (typeof data) "string" && truthy val) eqn:Hpair.
    + apply andb_true_iff in Hpair as [Hstr Hval].
      destruct data; try discriminate. destruct val as [v|]; [|discriminate].
      simpl. apply param_pair; [done|]. intros ->. discriminate.
    + rewrite app_nil_r, set_parameters_id, (store_same _ _ _ Hr).
      apply param_ignored; [done|]. intros Hstr. rewrite Hstr in Hpair.
      by destruct (truthy val).
Qed.

Lemma configured_cons c cs r :
  configured cs (configured [c] r) = configured (c :: cs) r.
Proof.
  unfold configured. destruct c; simpl; rewrite ?app_nil_r, <- ?app_assoc; reflexivity.
Qed.

Lemma configure_configured host c this w r :
  heap w !! this = Some r →
  plain_config c = true →
  configure host c this w = Returned this (store this (configured [c] r) w).
Proof.
  intros Hr Hp. destruct c as [name val|t|data val]; simpl.
  - rewrite (header_live _ _ _ _ _ Hr). unfold configured. simpl.
    by rewrite app_nil_r.
  - rewrite (contentType_live _ _ _ _ Hr). unfold configured. simpl.
    by rewrite !app_nil_r.
  - rewrite (param_exact _ _ _ _ _ _ Hr Hp). unfold configured. simpl.
    by rewrite !app_nil_r.
Qed.

Lemma chain_configured host cs : ∀ this w r,
  heap w !! this = Some r →
  plain_chain cs = true →
  chain host cs this w = Returned this (store this (configured cs r) w).
Proof.
  induction cs as [|c cs IH]; intros this w r Hr Hp.
  - simpl. unfold ret, configured. simpl. rewrite !app_nil_r.
    rewrite (store_same this); [done|]. by destruct r.
  - simpl in Hp. apply andb_true_iff in Hp as [Hpc Hpcs].
    simpl. unfold bind. rewrite (configure_configured _ _ _ _ _ Hr Hpc).
    rewrite (IH _ _ _ (heap_store _ _ _) Hpcs), store_store.
    by rewrite configured_cons.
Qed.

Lemma configure_returns_this host c this w b w' :
  configure host c this w = Returned b w' → b = this.
Proof.
  destruct c as [name val|t|data val]; simpl.
  - unfold header, bind. destruct (modify _ _ w); [|discriminate].
    unfold ret. congruence.
  - unfold contentType, bind. destruct (modify _ _ w); [|discriminate].
    unfold ret. congruence.
  - apply param_returns_this.
Qed.

Lemma chain_returns_this host cs : ∀ this w b w',
  chain host cs this w = Returned b w' → b = this.
Proof.
  induction cs as [|c cs IH]; intros this w b w'; simpl.
  - unfold ret. congruence.
  - unfold bind. destruct (configure host c this w) as [x w1|ex w1] eqn:Hc;
      [|discriminate].
    apply configure_returns_this in Hc as ->. apply IH.
Qed.

(** X1: after a chain of configuration calls whose [param] arguments
    leave [hasOwnProperty] the built-in one, the builder holds its headers
    followed by the headers of the [header] calls in call order, its
    parameters followed by what the [param] calls append in call order,
    and the tag of the last [contentType] call; method, URL and body are
    as constructed. *)
Theorem chain_accumulates_in_call_order host (cs : list config) (this : loc)
    (w : World) (r : HttpRequest) :
  heap w !! this = Some r →
  plain_chain cs = true →
  ∃ w' r',
    chain host cs this w = Returned this w'
    ∧ heap w' !! this = Some r'
    ∧ headers r' = headers r ++ header_entries cs
    ∧ parameters r' = parameters r ++ param_entries cs
    ∧ httpContentType r' = last_contentType cs (httpContentType r)
    ∧ httpMethod r' = httpMethod r ∧ url r' = url r ∧ body r' = body r.
Proof.
  intros Hr Hp. exists (store this (configured cs r) w), (configured cs r).
  split; [by apply chain_configured|]. split; [apply heap_store|].
  by repeat split.
Qed.

Lemma chain_accumulates_in_call_order_witness :
  heap sample_world !! 1%positive = Some sample_builder
  ∧ plain_chain [Param (JStr "c") (Some "3"); Header "X-Id" "7";
                 ContentType HttpContentType.Json; Param (JStr "d") None] = true
  ∧ ∃ w' r',
      chain quiet_host [Param (JStr "c") (Some "3"); Header "X-Id" "7";
             ContentType HttpContentType.Json; Param (JStr "d") None]
        1%positive sample_world = Returned 1%positive w'
      ∧ heap w' !! 1%positive = Some r'
      ∧ headers r' = [("Content-Type", "text/plain"); ("X-Id", "7")]
      ∧ parameters r' = [("c", JStr "3")].
Proof.
  split; [reflexivity|]. split; [reflexivity|].
  destruct (chain_accumulates_in_call_order quiet_host
              [Param (JStr "c") (Some "3"); Header "X-Id" "7";
               ContentType HttpContentType.Json; Param (JStr "d") None]
              1%positive sample_world sample_builder eq_refl eq_refl)
    as (w' & r' & Hc & Hl & Hh & Hp & _).
  exists w', r'. split; [exact Hc|]. split; [exact Hl|].
  split; [exact Hh|exact Hp].
Defined.

(** X2: calls of different kinds do not interfere: two chains whose
    [param] arguments leave [hasOwnProperty] the built-in one, with the
    same [header] calls in the same order, the same appended parameters in
    the same order and the same resulting tag, leave the same world,
    however the calls are interleaved. *)
Theorem chain_interleaving_irrelevant host (cs1 cs2 : list config) (this : loc)
    (w : World) (r : HttpRequest) :
  heap w !! this = Some r →
  plain_chain cs1 = true →
  plain_chain cs2 = true →
  header_entries cs1 = header_entries cs2 →
  param_entries cs1 = param_entries cs2 →
  last_contentType cs1 (httpContentType r) =
    last_contentType cs2 (httpContentType r) →
  chain host cs1 this w = chain host cs2 this w.
Proof.
  intros Hr Hp1 Hp2 Hh Hp Ht.
  rewrite (chain_configured host cs1 _ _ _ Hr Hp1).
  rewrite (chain_configured host cs2 _ _ _ Hr Hp2).
  unfold configured. by rewrite Hh, Hp, Ht.
Qed.

Lemma chain_interleaving_irrelevant_witness :
  heap sample_world !! 1%positive = Some sample_builder
  ∧ chain quiet_host [Header "X-Id" "7"; Param (JStr "c") (Some "3");
           ContentType HttpContentType.Json] 1%positive sample_world
    = chain quiet_host [ContentType HttpContentType.FormUrlEncoded;
             Param (JStr "c") (Some "3"); ContentType HttpContentType.Json;
             Header "X-Id" "7"] 1%positive sample_world.
Proof.
  split; [reflexivity|].
  apply (chain_interleaving_irrelevant quiet_host _ _ 1%positive sample_world
           sample_builder); reflexivity.
Defined.

(** X3: configuration is local and silent: a chain of calls whose [param]
    arguments leave [hasOwnProperty] the built-in one sends nothing,
    creates no object and leaves every other builder as it was. *)
Theorem chain_is_local_and_silent host (cs : list config) (this : loc)
    (w : World) (r : HttpRequest) :
  heap w !! this = Some r →
  plain_chain cs = true →
  ∃ w',
    chain host cs this w = Returned this w'
    ∧ network w' = network w
    ∧ dom (heap w') = dom (heap w)
    ∧ ∀ l, l ≠ this → heap w' !! l = heap w !! l.
Proof.
  intros Hr Hp. exists (store this (configured cs r) w).
  split; [by apply chain_configured|]. split; [reflexivity|].
  split; [by eapply dom_store|]. intros l Hne. by apply heap_store_ne.
Qed.

Lemma chain_is_local_and_silent_witness :
  heap sample_world !! 1%positive = Some sample_builder
  ∧ plain_chain [Header "X-Id" "7"; Param JNull None] = true
  ∧ ∃ w',
      chain quiet_host [Header "X-Id" "7"; Param JNull None] 1%positive
        sample_world = Returned 1%positive w'
      ∧ network w' = network sample_world.
Proof.
  split; [reflexivity|]. split; [reflexivity|].
  destruct (chain_is_local_and_silent quiet_host
              [Header "X-Id" "7"; Param JNull None]
              1%positive sample_world sample_builder eq_refl eq_refl)
    as (w' & Hc & Hn & _).
  exists w'. split; [exact Hc|exact Hn].
Defined.

(** ** The two shapes of [param] *)

Lemma pair_calls_entries own :
  Forall (fun e : string * value => ∃ s, e.2 = JStr s ∧ s ≠ "") own →
  header_entries (List.map pair_call own) = []
  ∧ param_entries (List.map pair_call own) = own
  ∧ (∀ d, last_contentType (List.map pair_call own) d = d)
  ∧ plain_chain (List.map pair_call own) = true.
Proof.
  induction 1 as [|[k v] own (s & Hv & Hs) _ (IHh & IHp & IHt & IHc)]; [done|].
  simpl in Hv. subst v. simpl. split; [done|]. split; [|done].
  rewrite IHp. unfold param_entries_of. simpl.
  destruct (String.eqb s "") eqn:E; [by apply String.eqb_eq in E|done].
Qed.

(** X4: the object form of [param] is the pair form repeated: for an
    object whose [hasOwnProperty] is the built-in one and whose values are
    non-empty strings, [param(data)] leaves the world that
    [param(key, data[key])], called for each own key in order, leaves. *)
Theorem param_object_is_repeated_pairs host (own inherited : list (string * value))
    (val : option string) (this : loc) (w : World) (r : HttpRequest) :
  heap w !! this = Some r →
  NoDup own.*1 →
  plain (JObj own inherited) = true →
  Forall (fun e : string * value => ∃ s, e.2 = JStr s ∧ s ≠ "") own →
  param host (JObj own inherited) val this w =
    chain host (List.map pair_call own) this w.
Proof.
  intros Hr Hnd Hpl Hown.
  rewrite (param_object host _ val _ _ _ Hr) by done.
  rewrite own_entries_object by done.
  destruct (pair_calls_entries own Hown) as (Hh & Hp & Ht & Hc).
  rewrite (chain_configured host _ _ _ _ Hr Hc).
  unfold configured. rewrite Hh, Hp, Ht, app_nil_r. by destruct r.
Qed.

Lemma param_object_is_repeated_pairs_witness :
  heap sample_world !! 1%positive = Some sample_builder
  ∧ plain (JObj [("a", JStr "1"); ("b", JStr "2")] [("z", JNull)]) = true
  ∧ param quiet_host (JObj [("a", JStr "1"); ("b", JStr "2")] [("z", JNull)])
      None 1%positive sample_world
    = chain quiet_host [Param (JStr "a") (Some "1"); Param (JStr "b") (Some "2")]
        1%positive sample_world.
Proof.
  split; [reflexivity|]. split; [reflexivity|].
  apply (param_object_is_repeated_pairs quiet_host
           [("a", JStr "1"); ("b", JStr "2")] [("z", JNull)] None
           1%positive sample_world sample_builder eq_refl).
  - simpl. apply NoDup_cons. split; [|apply NoDup_singleton].
    rewrite list_elem_of_singleton. discriminate.
  - reflexivity.
  - repeat constructor; eexists; (split; [reflexivity|discriminate]).
Defined.

(** ** Builders from the constructor *)

Lemma new_HttpRequest_store m u b w :
  new_HttpRequest m u b w =
    Returned (fresh (dom (heap w)))
      (store (fresh (dom (heap w))) (constructed m u b) w).
Proof. reflexivity. Qed.

Lemma fresh_not_live (w : World) : heap w !! fresh (dom (heap w)) = None.
Proof. apply not_elem_of_dom, is_fresh. Qed.

(** X5: builders share no state: two constructor calls return different
    objects, and configuring the first, with [param] arguments that leave
    [hasOwnProperty] the built-in one, leaves the second exactly as
    constructed, while the first holds what its own calls added; nothing
    is sent. *)
Theorem builders_are_independent host (m1 m2 : value) (u1 u2 : string)
    (bd1 bd2 : value) (cs : list config) (w : World) :
  plain_chain cs = true →
  ∃ b1 b2 w',
    (b1 <- new_HttpRequest m1 u1 bd1 ;;
     b2 <- new_HttpRequest m2 u2 bd2 ;;
     chain host cs b1 ;;;
     ret (b1, b2)) w = Returned (b1, b2) w'
    ∧ b1 ≠ b2
    ∧ heap w' !! b1 = Some (configured cs (constructed m1 u1 bd1))
    ∧ heap w' !! b2 = Some (constructed m2 u2 bd2)
    ∧ network w' = network w.
Proof.
  intros Hp.
  set (l1 := fresh (dom (heap w))).
  set (w1 := store l1 (constructed m1 u1 bd1) w).
  set (l2 := fresh (dom (heap w1))).
  set (w2 := store l2 (constructed m2 u2 bd2) w1).
  assert (Hne : l1 ≠ l2).
  { intros E. pose proof (fresh_not_live w1) as Hf. fold l2 in Hf.
    rewrite <- E in Hf. unfold w1 in Hf. by rewrite heap_store in Hf. }
  assert (Hl1 : heap w2 !! l1 = Some (constructed m1 u1 bd1)).
  { unfold w2. rewrite heap_store_ne by done. apply heap_store. }
  exists l1, l2, (store l1 (configured cs (constructed m1 u1 bd1)) w2).
  split.
  - unfold bind. rewrite new_HttpRequest_store. fold l1 w1.
    rewrite new_HttpRequest_store. fold l2 w2.
    by rewrite (chain_configured host _ _ _ _ Hl1 Hp).
  - split; [done|]. split; [apply heap_store|]. split; [|reflexivity].
    rewrite heap_store_ne by done. apply heap_store.
Qed.

Lemma builders_are_independent_witness :
  plain_chain [Header "X-Id" "7"; Param (JObj [("a", JStr "1")] []) None] = true
  ∧ ∃ b1 b2 w',
      (b1 <- new_HttpRequest HttpMethod.Post "/a" (JStr "x") ;;
       b2 <- new_HttpRequest HttpMethod.Get "/b" JUndefined ;;
       chain quiet_host
         [Header "X-Id" "7"; Param (JObj [("a", JStr "1")] []) None] b1 ;;;
       ret (b1, b2)) sample_world = Returned (b1, b2) w'
      ∧ b1 ≠ b2
      ∧ heap w' !! b2 = Some (constructed HttpMethod.Get "/b" JUndefined).
Proof.
  split; [reflexivity|].
  destruct (builders_are_independent quiet_host HttpMethod.Post HttpMethod.Get
              "/a" "/b" (JStr "x") JUndefined
              [Header "X-Id" "7"; Param (JObj [("a", JStr "1")] []) None]
              sample_world eq_refl)
    as (b1 & b2 & w' & Hc & Hne & _ & Hb2 & _).
  exists b1, b2, w'. split; [exact Hc|]. split; [exact Hne|exact Hb2].
Defined.

(** X6: a builder sent as the factory made it: [get(url)] and
    [delete(url)] reach the client's [get] and [delete] with that URL, the
    single header [Content-Type: application/json] and no parameters;
    [post] and [put] likewise, with the body serialized. *)
Theorem fresh_builder_default_request (u : string) (b : value)
    (handler : callback) (errorHandler completeHandler : option callback)
    (w : World) :
  let options := mkOptions [("Content-Type", "application/json")] [] in
  let sent := if String.eqb (typeof b) "string" then JSON_stringify b else b in
  let goes (make : M loc) (o : Observable) :=
    ∃ w2,
      (x <- make ;; handle handler errorHandler None completeHandler x) w =
        Returned tt w2
      ∧ network w2 =
          network w ++ [mkSubscription o handler errorHandler completeHandler] in
  goes (HttpHelper.get u) (ClientGet u options)
  ∧ goes (HttpHelper.post u b) (ClientPost u sent options)
  ∧ goes (HttpHelper.put u b) (ClientPut u sent options)
  ∧ goes (HttpHelper.delete u) (ClientDelete u options).
Proof.
  assert (Hgo : ∀ m bd,
    ∃ w2,
      (x <- new_HttpRequest m u bd ;;
       handle handler errorHandler None completeHandler x) w = Returned tt w2
      ∧ network w2 =
          network w ++
            [mkSubscription (client_call (finalize (constructed m u bd)))
               handler errorHandler completeHandler]).
  { intros m bd. unfold bind. rewrite new_HttpRequest_store.
    erewrite (handle_proceeds _ _ None _ _ _ None);
      [|reflexivity|discriminate|apply heap_store].
    eexists. split; reflexivity. }
  simpl. repeat split; apply Hgo.
Qed.

(** ** What sending does to the builder *)

Lemma getContentType_form t :
  getContentType t = "application/x-www-form-urlencoded"
  ↔ t = HttpContentType.FormUrlEncoded.
Proof.
  unfold getContentType.
  destruct (strict_equals t HttpContentType.FormUrlEncoded) eqn:E.
  - apply strict_equals_num in E. by split.
  - split; [by destruct (strict_equals t HttpContentType.Json)|].
    intros ->. discriminate.
Qed.

Lemma getContentType_json t :
  t ≠ HttpContentType.FormUrlEncoded → getContentType t = "application/json".
Proof.
  intros Hne. unfold getContentType.
  destruct (strict_equals t HttpContentType.FormUrlEncoded) eqn:E.
  - by apply strict_equals_num in E.
  - by destruct (strict_equals t HttpContentType.Json).
Qed.

Section SendingEffects.

Variables (handler : callback) (errorHandler completeHandler : option callback).
Variable beforeHandler : option (M value).
Variable this : loc.
Variables (w w1 : World) (ov : option value) (r : HttpRequest).
Hypothesis Hbefore : before_outcome beforeHandler w = Returned ov w1.
Hypothesis Hlive : heap w1 !! this = Some r.
Hypothesis Hproceeds : ov ≠ Some (JBool false).

(** X7: sending changes the builder: the mapped [Content-Type] stays
    appended to its headers; its parameters, tag, method, URL and body, and
    every other builder, are as [beforeHandler] left them. *)
Theorem handle_leaves_content_type_on_builder :
  ∃ w2 r',
    handle handler errorHandler beforeHandler completeHandler this w =
      Returned tt w2
    ∧ heap w2 !! this = Some r'
    ∧ headers r' =
        headers r ++ [("Content-Type", getContentType (httpContentType r))]
    ∧ parameters r' = parameters r
    ∧ httpContentType r' = httpContentType r
    ∧ httpMethod r' = httpMethod r ∧ url r' = url r ∧ body r' = body r
    ∧ ∀ l, l ≠ this → heap w2 !! l = heap w1 !! l.
Proof.
  rewrite (handle_proceeds _ _ _ _ _ _ _ _ _ Hbefore Hproceeds Hlive).
  eexists _, (finalize r). split; [reflexivity|]. simpl.
  split; [apply lookup_insert_eq|]. repeat split.
  intros l Hne. by apply lookup_insert_ne.
Qed.

(** X8: whatever the tag holds, the mapped value is one of two: it is
    [application/x-www-form-urlencoded] exactly when the tag is
    [FormUrlEncoded], and [application/json] for every other value,
    recognised or not. *)
Theorem handle_content_type_form_iff_tag :
  ∃ w2 o,
    handle handler errorHandler beforeHandler completeHandler this w =
      Returned tt w2
    ∧ network w2 =
        network w1 ++ [mkSubscription o handler errorHandler completeHandler]
    ∧ (last (opt_headers (options_of o)) =
         Some ("Content-Type", "application/x-www-form-urlencoded")
       ↔ httpContentType r = HttpContentType.FormUrlEncoded)
    ∧ (httpContentType r ≠ HttpContentType.FormUrlEncoded →
       last (opt_headers (options_of o)) =
         Some ("Content-Type", "application/json")).
Proof.
  rewrite (handle_proceeds _ _ _ _ _ _ _ _ _ Hbefore Hproceeds Hlive).
  eexists _, _. split; [reflexivity|]. split; [reflexivity|].
  rewrite options_client_call. simpl. rewrite last_snoc. split.
  - rewrite <- getContentType_form. split; [congruence|by intros ->].
  - intros Hne. by rewrite getContentType_json.
Qed.

(** X9: only [Post] and [Put] carry a body: for every other method value
    the client call has none, whatever body the builder was given. *)
Theorem handle_sends_no_body_unless_post_or_put :
  httpMethod r ≠ HttpMethod.Post →
  httpMethod r ≠ HttpMethod.Put →
  ∃ w2 o,
    handle handler errorHandler beforeHandler completeHandler this w =
      Returned tt w2
    ∧ network w2 =
        network w1 ++ [mkSubscription o handler errorHandler completeHandler]
    ∧ body_of o = None.
Proof.
  intros HP HU.
  rewrite (handle_proceeds _ _ _ _ _ _ _ _ _ Hbefore Hproceeds Hlive).
  eexists _, _. split; [reflexivity|]. split; [reflexivity|].
  unfold client_call. simpl.
  destruct (strict_equals (httpMethod r) HttpMethod.Get); [done|].
  destruct (strict_equals (httpMethod r) HttpMethod.Post) eqn:EP;
    [by apply strict_equals_num in EP|].
  destruct (strict_equals (httpMethod r) HttpMethod.Put) eqn:EU;
    [by apply strict_equals_num in EU|].
  by destruct (strict_equals (httpMethod r) HttpMethod.Delete).
Qed.

End SendingEffects.

(** X10: [handle] is not repeatable without trace: called twice on the
    same builder it sends two requests, and the second carries the mapped
    [Content-Type] twice, because the first call left it on the builder. *)
Theorem handle_twice_repeats_content_type
    (h1 h2 : callback) (e1 c1 e2 c2 : option callback)
    (this : loc) (w : World) (r : HttpRequest) :
  heap w !! this = Some r →
  let ct := ("Content-Type", getContentType (httpContentType r)) in
  ∃ w2 o1 o2,
    (handle h1 e1 None c1 this ;;; handle h2 e2 None c2 this) w =
      Returned tt w2
    ∧ network w2 =
        network w ++ [mkSubscription o1 h1 e1 c1; mkSubscription o2 h2 e2 c2]
    ∧ opt_headers (options_of o1) = headers r ++ [ct]
    ∧ opt_headers (options_of o2) = headers r ++ [ct; ct].
Proof.
  intros Hr ct. unfold bind.
  rewrite (handle_proceeds h1 e1 None c1 this w None w r);
    [|reflexivity|discriminate|done].
  erewrite (handle_proceeds h2 e2 None c2 this _ None);
    [|reflexivity|discriminate|apply lookup_insert_eq].
  eexists _, _, _. split; [reflexivity|]. simpl.
  split; [by rewrite <- app_assoc|].
  rewrite !options_client_call. simpl. split; [done|].
  by rewrite <- app_assoc.
Qed.

Lemma handle_twice_repeats_content_type_witness :
  heap sample_world !! 1%positive = Some sample_builder
  ∧ ∃ w2 o1 o2,
      (handle 7 None None None 1%positive ;;;
       handle 8 None None None 1%positive) sample_world = Returned tt w2
      ∧ network w2 =
          [mkSubscription o1 7 None None; mkSubscription o2 8 None None]
      ∧ opt_headers (options_of o2) =
          [("Content-Type", "text/plain"); ("Content-Type", "application/json");
           ("Content-Type", "application/json")].
Proof.
  split; [reflexivity|].
  destruct (handle_twice_repeats_content_type 7 8 None None None None
              1%positive sample_world sample_builder eq_refl)
    as (w2 & o1 & o2 & Hh & Hn & _ & Ho2).
  exists w2, o1, o2. split; [exact Hh|]. split; [exact Hn|exact Ho2].
Defined.

(** X11: an exception thrown by [beforeHandler] leaves [handle] as it
    is, in the world [beforeHandler] left: no content type is appended and
    nothing is sent. *)
Theorem handle_propagates_before_exception
    (handler : callback) (errorHandler completeHandler : option callback)
    (before : M value) (this : loc) (w w1 : World) (ex : exn) :
  before w = Thrown ex w1 →
  handle handler errorHandler (Some before) completeHandler this w =
    Thrown ex w1.
Proof. intros Hb. unfold handle, bind. by rewrite Hb. Qed.

Lemma handle_propagates_before_exception_witness :
  failing_before sample_world = Thrown (Raised (JStr "stop")) sample_world
  ∧ handle 7 None (Some failing_before) None 1%positive sample_world =
      Thrown (Raised (JStr "stop")) sample_world.
Proof.
  split; [reflexivity|].
  apply (handle_propagates_before_exception 7 None None failing_before
           1%positive sample_world sample_world (Raised (JStr "stop"))).
  reflexivity.
Defined.

(** X12: [beforeHandler] runs before the content type is finalized and
    the options are read: configuration calls it makes on the builder go
    out with the request, as if made before [handle]; when it then
    returns [false] the calls still take effect but nothing is sent. *)
Theorem before_handler_configuration_is_sent host
    (handler : callback) (errorHandler completeHandler : option callback)
    (cs : list config) (v : value) (this : loc) (w : World) :
  (v ≠ JBool false →
   handle handler errorHandler (Some (chain host cs this ;;; ret v))
     completeHandler this w
   = (x <- chain host cs this ;;
      handle handler errorHandler None completeHandler x) w)
  ∧ handle handler errorHandler (Some (chain host cs this ;;; ret (JBool false)))
      completeHandler this w
    = (chain host cs this ;;; ret tt) w.
Proof.
  split.
  - intros Hv. unfold handle, bind.
    destruct (chain host cs this w) as [b w'|ex w'] eqn:Hc; [|reflexivity].
    apply chain_returns_this in Hc as ->. unfold ret.
    destruct (strict_equals v (JBool false)) eqn:E; [|reflexivity].
    by apply strict_equals_false in E.
  - unfold handle, bind. by destruct (chain host cs this w).
Qed.

Lemma before_handler_configuration_is_sent_witness :
  JBool true ≠ JBool false
  ∧ handle 7 None
      (Some (chain quiet_host [ContentType HttpContentType.FormUrlEncoded] 1%positive ;;;
             ret (JBool true)))
      None 1%positive sample_world
    = (x <- chain quiet_host [ContentType HttpContentType.FormUrlEncoded] 1%positive ;;
       handle 7 None None None x) sample_world.
Proof.
  split; [discriminate|].
  apply (proj1 (before_handler_configuration_is_sent quiet_host 7 None None
                  [ContentType HttpContentType.FormUrlEncoded] (JBool true)
                  1%positive sample_world)).
  discriminate.
Defined.

(** X13: serializing a string body loses nothing and leaves the builder
    alone: [getBody] returns a JSON string literal that reads back as the
    bound string, in an unchanged world. *)
Theorem getBody_string_reads_back (this : loc) (w : World) (r : HttpRequest)
    (s : string) :
  heap w !! this = Some r →
  body r = JStr s →
  ∃ q, getBody this w = Returned (JStr q) w ∧ JSON_parse_string q = Some s.
Proof.
  intros Hr Hs. exists (QuoteJSONString s).
  rewrite (getBody_live _ _ _ Hr). unfold sent_body. rewrite Hs. simpl.
  split; [reflexivity|apply JSON_parse_quoted].
Qed.

Lemma getBody_string_reads_back_witness :
  heap sample_world !! 1%positive = Some sample_builder
  ∧ body sample_builder = JStr "x"
  ∧ ∃ q, getBody 1%positive sample_world = Returned (JStr q) sample_world
         ∧ JSON_parse_string q = Some "x".
Proof.
  split; [reflexivity|]. split; [reflexivity|].
  apply (getBody_string_reads_back 1%positive sample_world sample_builder "x");
    reflexivity.
Defined.

(** X14: a vetoed [handle] does not use the builder up: a later [handle]
    on it sends one request, with the mapped [Content-Type] once. *)
Theorem vetoed_handle_leaves_builder_usable
    (h1 h2 : callback) (e1 c1 e2 c2 : option callback) (before : M value)
    (this : loc) (w w1 : World) (r : HttpRequest) :
  before w = Returned (JBool false) w1 →
  heap w1 !! this = Some r →
  ∃ w2 o,
    (handle h1 e1 (Some before) c1 this ;;; handle h2 e2 None c2 this) w =
      Returned tt w2
    ∧ network w2 = network w1 ++ [mkSubscription o h2 e2 c2]
    ∧ opt_headers (options_of o) =
        headers r ++ [("Content-Type", getContentType (httpContentType r))].
Proof.
  intros Hb Hr. unfold bind.
  rewrite (handle_vetoed h1 e1 (Some before) c1 this w w1)
    by (simpl; unfold bind; by rewrite Hb).
  rewrite (handle_proceeds h2 e2 None c2 this w1 None w1 r);
    [|reflexivity|discriminate|done].
  eexists _, _. split; [reflexivity|]. split; [reflexivity|].
  by rewrite options_client_call.
Qed.

Lemma vetoed_handle_leaves_builder_usable_witness :
  ret (JBool false) sample_world = Returned (JBool false) sample_world
  ∧ heap sample_world !! 1%positive = Some sample_builder
  ∧ ∃ w2 o,
      (handle 7 None (Some (ret (JBool false))) None 1%positive ;;;
       handle 8 None None None 1%positive) sample_world = Returned tt w2
      ∧ network w2 = network sample_world ++ [mkSubscription o 8 None None]
      ∧ opt_headers (options_of o) =
          [("Content-Type", "text/plain"); ("Content-Type", "application/json")].
Proof.
  split; [reflexivity|]. split; [reflexivity|].
  apply (vetoed_handle_leaves_builder_usable 7 8 None None None None
           (ret (JBool false)) 1%positive sample_world sample_world
           sample_builder); reflexivity.
Defined.

(** X15: the whole fluent pipeline: a builder constructed, configured by
    a chain of calls whose [param] arguments leave [hasOwnProperty] the
    built-in one, and sent reaches the client with exactly the
    headers of the [header] calls in order followed by the mapped
    [Content-Type] of the last [contentType] call ([application/json] when
    there is none), and exactly the parameters the [param] calls
    appended, in order. *)
Theorem pipeline_options host (m : value) (u : string) (bd : value)
    (cs : list config) (handler : callback)
    (errorHandler completeHandler : option callback) (w : World) :
  plain_chain cs = true →
  ∃ w2 o,
    (x <- new_HttpRequest m u bd ;;
     y <- chain host cs x ;;
     handle handler errorHandler None completeHandler y) w = Returned tt w2
    ∧ network w2 =
        network w ++ [mkSubscription o handler errorHandler completeHandler]
    ∧ options_of o =
        mkOptions
          (header_entries cs ++
             [("Content-Type", getContentType (last_contentType cs JUndefined))])
          (param_entries cs).
Proof.
  intros Hp. unfold bind. rewrite new_HttpRequest_store.
  rewrite (chain_configured host cs _ _ _ (heap_store _ _ _) Hp), store_store.
  erewrite (handle_proceeds _ _ None _ _ _ None);
    [|reflexivity|discriminate|apply heap_store].
  eexists _, _. split; [reflexivity|]. split; [reflexivity|].
  by rewrite options_client_call.
Qed.

Lemma pipeline_options_witness :
  plain_chain [Param (JObj [("a", JStr "1")] []) None; Header "X-Id" "7";
               ContentType HttpContentType.FormUrlEncoded] = true
  ∧ ∃ w2 o,
      (x <- new_HttpRequest HttpMethod.Post "/api" (JStr "x") ;;
       y <- chain quiet_host
              [Param (JObj [("a", JStr "1")] []) None; Header "X-Id" "7";
               ContentType HttpContentType.FormUrlEncoded] x ;;
       handle 7 None None None y) sample_world = Returned tt w2
      ∧ network w2 = network sample_world ++ [mkSubscription o 7 None None]
      ∧ options_of o =
          mkOptions
            [("X-Id", "7");
             ("Content-Type", "application/x-www-form-urlencoded")]
            [("a", JStr "1")].
Proof.
  split; [reflexivity|].
  apply (pipeline_options quiet_host HttpMethod.Post "/api" (JStr "x")
           [Param (JObj [("a", JStr "1")] []) None; Header "X-Id" "7";
            ContentType HttpContentType.FormUrlEncoded] 7 None None
           sample_world eq_refl).
Defined.

(** ** The sending effects at the sample builders *)

Lemma handle_leaves_content_type_on_builder_witness :
  before_outcome allow sample_world = Returned (Some (JBool true)) sample_world
  ∧ heap sample_world !! 1%positive = Some sample_builder
  ∧ Some (JBool true) ≠ Some (JBool false)
  ∧ ∃ w2 r',
      handle 7 None allow None 1%positive sample_world = Returned tt w2
      ∧ heap w2 !! 1%positive = Some r'
      ∧ headers r' =
          [("Content-Type", "text/plain"); ("Content-Type", "application/json")].
Proof.
  split; [reflexivity|]. split; [reflexivity|]. split; [exact allow_proceeds|].
  destruct (handle_leaves_content_type_on_builder 7 None None allow 1%positive
              sample_world sample_world (Some (JBool true)) sample_builder
              eq_refl eq_refl allow_proceeds)
    as (w2 & r' & Hh & Hl & Hhd & _).
  exists w2, r'. split; [exact Hh|]. split; [exact Hl|exact Hhd].
Defined.

Lemma handle_content_type_form_iff_tag_witness :
  before_outcome None sample_get_world = Returned None sample_get_world
  ∧ heap sample_get_world !! 2%positive = Some sample_get_builder
  ∧ None ≠ Some (JBool false)
  ∧ httpContentType sample_get_builder ≠ HttpContentType.FormUrlEncoded
  ∧ ∃ w2 o,
      handle 7 None None None 2%positive sample_get_world = Returned tt w2
      ∧ network w2 = network sample_get_world ++ [mkSubscription o 7 None None]
      ∧ last (opt_headers (options_of o)) =
          Some ("Content-Type", "application/json").
Proof.
  split; [reflexivity|]. split; [reflexivity|]. split; [discriminate|].
  split; [discriminate|].
  destruct (handle_content_type_form_iff_tag 7 None None None 2%positive
              sample_get_world sample_get_world None sample_get_builder
              eq_refl eq_refl ltac:(discriminate))
    as (w2 & o & Hh & Hn & _ & Hjson).
  exists w2, o. split; [exact Hh|]. split; [exact Hn|].
  apply Hjson. discriminate.
Defined.

Lemma handle_sends_no_body_unless_post_or_put_witness :
  before_outcome None sample_get_world = Returned None sample_get_world
  ∧ heap sample_get_world !! 2%positive = Some sample_get_builder
  ∧ None ≠ Some (JBool false)
  ∧ httpMethod sample_get_builder ≠ HttpMethod.Post
  ∧ httpMethod sample_get_builder ≠ HttpMethod.Put
  ∧ ∃ w2 o,
      handle 7 None None None 2%positive sample_get_world = Returned tt w2
      ∧ network w2 = network sample_get_world ++ [mkSubscription o 7 None None]
      ∧ body_of o = None.
Proof.
  split; [reflexivity|]. split; [reflexivity|]. split; [discriminate|].
  split; [discriminate|]. split; [discriminate|].
  apply (handle_sends_no_body_unless_post_or_put 7 None None None 2%positive
           sample_get_world sample_get_world None sample_get_builder
           eq_refl eq_refl); discriminate.
Defined.

(** ** Objects without the built-in [hasOwnProperty] *)

(** X18: an object without prototype has no [hasOwnProperty]: given one
    with something to enumerate and no property of that name, [param]
    throws a [TypeError] on the first key and appends nothing; given one
    with nothing to enumerate, the loop never makes the call and [param]
    is a no-op. *)
Theorem param_bare_object_throws host (e : string * value)
    (own inherited : list (string * value)) (val : option string)
    (this : loc) (w : World) :
  lookup_prop "hasOwnProperty" (e :: own) = None →
  lookup_prop "hasOwnProperty" inherited = None →
  param host (JBare (e :: own) inherited) val this w = Thrown TypeError w
  ∧ param host (JBare [] []) val this w = Returned this w.
Proof.
  intros Ho Hi. split; [|reflexivity].
  unfold param. simpl typeof. rewrite String.eqb_refl.
  unfold bind at 1. simpl for_each. unfold bind at 1. unfold bind at 1.
  unfold hasOwnProperty, shadowing_member. by rewrite Ho, Hi.
Qed.

Lemma param_bare_object_throws_witness :
  lookup_prop "hasOwnProperty" [("a", JStr "1")] = None
  ∧ lookup_prop "hasOwnProperty" [] = None
  ∧ param quiet_host (JBare [("a", JStr "1")] []) None 1%positive sample_world
    = Thrown TypeError sample_world.
Proof.
  split; [reflexivity|]. split; [reflexivity|].
  apply (param_bare_object_throws quiet_host ("a", JStr "1") [] [] None
           1%positive sample_world); reflexivity.
Defined.

(** The caller's own [hasOwnProperty] is what the loop asks: with a
    function there that answers [true], inherited properties are copied
    too. *)
Example param_asks_callers_hasOwnProperty :
  param (fun _ _ _ => ret (JBool true))
    (JObj [("hasOwnProperty", JFun 0); ("a", JStr "1")] [("z", JStr "9")])
    None 1%positive sample_world
  = Returned 1%positive
      (store 1%positive
         (set_parameters
            [("hasOwnProperty", JFun 0); ("a", JStr "1"); ("z", JStr "9")]
            sample_builder) sample_world).
Proof. reflexivity. Qed.
